(** * KnowledgeSelectionModel: the hop loop of KnowledgeSelection/Model/model.py

    A shallow embedding of [KnowledgeSelectionModel] (construction, [forward],
    [training_step], [validation_step], [log_outputs], [on_train_epoch_end])
    together with the statements that the design document makes about it.

    Conventions.
    - Python numbers are rationals ([Q]); the literals of the source
      ([0.15], [-6e4], [-1e6]) denote the exact fractions.
    - Python exceptions are values of [exn]; a method that can raise returns
      [res].
    - The configuration mapping [opt] is a finite map from strings to
      dynamically typed values ([pyval]).
    - The modules the class delegates to (input layer, graph scorer, node
      selector, knowledge selector, reward and loss functions) live in other
      files of the repository; they are the fields of [Collaborators], over
      the data of [Carriers].  Their hidden state (random generator, buffers)
      is the [World] threaded through every call. *)

From Stdlib Require Import QArith Qround ZArith List String Lia Bool Sorted.
From stdpp Require Import base gmap strings list.

Open Scope Q_scope.

(** ** Exceptions *)

Inductive exn : Type :=
| KeyError (key : string)
| ValueError
| TypeError
| IndexError
| UnboundLocalError (name : string)
| ZeroDivisionError.

Inductive res (A : Type) : Type :=
| Ok (a : A)
| Raise (e : exn).

Arguments Ok {A} a.
Arguments Raise {A} e.

#[global] Instance res_ret : MRet res := fun A a => Ok a.

#[global] Instance res_bind : MBind res := fun A B k r =>
  match r with
  | Ok a => k a
  | Raise e => Raise e
  end.

(** ** Dynamically typed values of the configuration *)

#[warnings="-register-all"] Inductive pyval : Type :=
| PNone
| PBool (b : bool)
| PInt (z : Z)
| PFloat (q : Q)
| PStr (s : string)
| PList (l : list pyval).

(** [v == s] for a string literal [s]. *)
Definition py_eq_str (v : pyval) (s : string) : bool :=
  match v with
  | PStr t => String.eqb t s
  | _ => false
  end.

(** Truth value of [if v:]. *)
Definition truthy (v : pyval) : bool :=
  match v with
  | PNone => false
  | PBool b => b
  | PInt z => negb (z =? 0)%Z
  | PFloat q => negb (Qeq_bool q 0)
  | PStr s => negb (String.eqb s "")
  | PList l => match l with [] => false | _ => true end
  end.

(** Number of iterations of [range(0, v)]. *)
Definition py_range (v : pyval) : res nat :=
  match v with
  | PInt z => Ok (Z.to_nat z)
  | PBool b => Ok (if b then 1%nat else 0%nat)
  | _ => Raise TypeError
  end.

(** A value used as a number. *)
Definition py_num (v : pyval) : res Q :=
  match v with
  | PInt z => Ok (inject_Z z)
  | PFloat q => Ok q
  | PBool b => Ok (if b then 1 else 0)
  | _ => Raise TypeError
  end.

(** [v[0]]. *)
Definition py_index0 (v : pyval) : res pyval :=
  match v with
  | PList (x :: _) => Ok x
  | PList [] => Raise IndexError
  | PStr (String c _) => Ok (PStr (String c EmptyString))
  | PStr EmptyString => Raise IndexError
  | _ => Raise TypeError
  end.

Fixpoint chars (s : string) : list pyval :=
  match s with
  | EmptyString => []
  | String c s' => PStr (String c EmptyString) :: chars s'
  end.

(** [a, b, c = v]. *)
Definition py_unpack3 (v : pyval) : res (pyval * pyval * pyval) :=
  match v with
  | PList [a; b; c] => Ok (a, b, c)
  | PList _ => Raise ValueError
  | PStr s => match chars s with
              | [a; b; c] => Ok (a, b, c)
              | _ => Raise ValueError
              end
  | _ => Raise TypeError
  end.

(** [opt[k]]. *)
Definition getitem (opt : gmap string pyval) (k : string) : res pyval :=
  match opt !! k with
  | Some v => Ok v
  | None => Raise (KeyError k)
  end.

(** ** Numbers *)

(** [x < y] on rationals, as a boolean. *)
Definition Qltb (x y : Q) : bool :=
  (Qnum x * QDen y <? Qnum y * QDen x)%Z.

(** [torch.sum] of a one-dimensional tensor and the builtin [sum]: both add
    the entries from the left, starting at zero. *)
Definition tsum (l : list Q) : Q := fold_left Qplus l 0.

(** [x / n] for a count [n]; Python raises on a zero divisor. *)
Definition py_div (x : Q) (n : nat) : res Q :=
  match n with
  | O => Raise ZeroDivisionError
  | S _ => Ok (x / inject_Z (Z.of_nat n))
  end.

(** ** The collaborators *)

(** The data the collaborators exchange: their hidden state, torch tensors,
    numpy arrays and the identifiers of knowledge items. *)
Class Carriers : Type := {
  World : Type;
  Tensor : Type;
  Array : Type;
  Item : Type
}.

Class Collaborators (D : Carriers) : Type := {
  (** [self.inputlayer(inp)] *)
  inputlayer : World -> Tensor -> World * Tensor;
  (** [torch.zeros(batch["nodes"].shape, ...)] *)
  zeros : Array -> Tensor;
  (** lines 65-66: the padded node states pushed through the graph scorer *)
  score_nodes : World -> Array -> Tensor -> World * Tensor;
  (** [self.node_selector((nodes, adj, label), all_node_embedding, input_info,
      agent_state, (current_node, current_activation, current_score),
      self.training, self.label_smoothing_rate)] *)
  node_selector :
    World -> Array * Tensor * Tensor -> Tensor -> Tensor -> Tensor ->
    Array * Tensor * Tensor -> bool -> Q ->
    World * (Tensor * Array * Tensor * Tensor * Tensor * Q);
  (** [self.knowledge_selector((gold_k, nodes), agent_state, current_score,
      self.label_smoothing_rate)] *)
  knowledge_selector :
    World -> Array * Array -> Tensor -> Tensor -> Q ->
    World * (list (list Item) * Q * Array * Q);
  (** [reward_function(node_reward, knowledge_reward, pool_reward,
      base_poolsize, gold_k, gold_n, current_node, knowledge_pool, raw_kp)] *)
  reward_function :
    pyval -> pyval -> pyval -> pyval -> Array -> Array -> Array ->
    list (list Item) -> Array -> list Q * Array * Array;
  (** [loss_function(result)] *)
  loss_function : list (Tensor * list Q * Q * Q) -> list Q * Array;
  (** [loss_detail / num_steps] *)
  array_div : Array -> nat -> Array
}.

Section Model.

Context {D : Carriers} {C : Collaborators D}.

(** One entry of [result]: [(prob, current_reward, node_nll, knowledge_nll)]. *)
Definition HopResult : Type := Tensor * list Q * Q * Q.

Definition hr_reward (r : HopResult) : list Q := snd (fst (fst r)).
Definition hr_node_nll (r : HopResult) : Q := snd (fst r).
Definition hr_knowledge_nll (r : HopResult) : Q := snd r.

(** A batch as the data loader yields it. *)
Record Batch : Type := {
  embedding : Tensor;
  root : Array;
  nodes : Array;
  adj : Tensor;
  label : Tensor;
  gold_k : Array;
  gold_n : Array
}.

(** The tuple a step appends to [training_step_outputs]:
    [(topk_acc, avg_pool_size, reward, reward_detail, loss_detail, num_steps)]. *)
Record StepOutput : Type := {
  so_topk_acc : Array;
  so_pool_size : nat;
  so_reward : Q;
  so_reward_detail : Array;
  so_loss_detail : Array;
  so_num_steps : nat
}.

(** The attributes of the model object that the methods below read or write
    ([self.opt] is only consulted for the device of two tensors). *)
Record Model : Type := {
  batch_size : pyval;
  max_hops : pyval;
  label_smoothing_rate : Q;
  avg_pool_size : Q;
  early_stop : pyval;
  base_poolsize : pyval;
  node_reward : pyval;
  knowledge_reward : pyval;
  pool_reward : pyval;
  precision : pyval;
  mask : Q;
  samples : pyval;
  training_step_outputs : list StepOutput;
  validation_step_outputs : list (Z * StepOutput);
  training : bool;
  logged : list (string * Q)
}.

(** [__init__], lines 19-33, 42 and 47-48.  Lines 35-45 build the
    collaborating objects, the optimizer and the scheduler from further keys
    ([hidden_dim], [propagation_rate], [min_poolsize], [rollouts], [lr],
    [epochs]) and are outside the model: where they raise, [init] does not
    tell.  So [init opt = Ok m] is used below as a hypothesis only (what holds
    of the model once the constructor has returned), and an exception of
    [init] is concluded only for the keys of lines 21-29, which are read
    before anything else.  A freshly built module is in training mode. *)
Definition init (opt : gmap string pyval) : res Model :=
  batch_size ← getitem opt "batch_size";
  max_hops ← getitem opt "max_hops";
  early_stop ← getitem opt "early_stop";
  base_poolsize ← getitem opt "base_poolsize";
  reward ← getitem opt "reward";
  '(node_reward, knowledge_reward, pool_reward) ← py_unpack3 reward;
  precision ← getitem opt "precision";
  let mask := if py_eq_str precision "16" then -6e4 else -1e6 in
  samples ← getitem opt "samples";
  Ok {| batch_size := batch_size;
        max_hops := max_hops;
        label_smoothing_rate := 0.15;
        avg_pool_size := 0;
        early_stop := early_stop;
        base_poolsize := base_poolsize;
        node_reward := node_reward;
        knowledge_reward := knowledge_reward;
        pool_reward := pool_reward;
        precision := precision;
        mask := mask;
        samples := samples;
        training_step_outputs := [];
        validation_step_outputs := [];
        training := true;
        logged := [] |}.

(** Attribute assignments. *)
Definition set_avg_pool_size (m : Model) (v : Q) : Model :=
  {| batch_size := batch_size m; max_hops := max_hops m;
     label_smoothing_rate := label_smoothing_rate m; avg_pool_size := v;
     early_stop := early_stop m; base_poolsize := base_poolsize m;
     node_reward := node_reward m; knowledge_reward := knowledge_reward m;
     pool_reward := pool_reward m; precision := precision m; mask := mask m;
     samples := samples m;
     training_step_outputs := training_step_outputs m;
     validation_step_outputs := validation_step_outputs m;
     training := training m; logged := logged m |}.

Definition set_training_step_outputs (m : Model) (v : list StepOutput) : Model :=
  {| batch_size := batch_size m; max_hops := max_hops m;
     label_smoothing_rate := label_smoothing_rate m;
     avg_pool_size := avg_pool_size m;
     early_stop := early_stop m; base_poolsize := base_poolsize m;
     node_reward := node_reward m; knowledge_reward := knowledge_reward m;
     pool_reward := pool_reward m; precision := precision m; mask := mask m;
     samples := samples m;
     training_step_outputs := v;
     validation_step_outputs := validation_step_outputs m;
     training := training m; logged := logged m |}.

Definition set_validation_step_outputs (m : Model) (v : list (Z * StepOutput)) : Model :=
  {| batch_size := batch_size m; max_hops := max_hops m;
     label_smoothing_rate := label_smoothing_rate m;
     avg_pool_size := avg_pool_size m;
     early_stop := early_stop m; base_poolsize := base_poolsize m;
     node_reward := node_reward m; knowledge_reward := knowledge_reward m;
     pool_reward := pool_reward m; precision := precision m; mask := mask m;
     samples := samples m;
     training_step_outputs := training_step_outputs m;
     validation_step_outputs := v;
     training := training m; logged := logged m |}.

(** [self.train()] / [self.eval()]. *)
Definition set_training (m : Model) (v : bool) : Model :=
  {| batch_size := batch_size m; max_hops := max_hops m;
     label_smoothing_rate := label_smoothing_rate m;
     avg_pool_size := avg_pool_size m;
     early_stop := early_stop m; base_poolsize := base_poolsize m;
     node_reward := node_reward m; knowledge_reward := knowledge_reward m;
     pool_reward := pool_reward m; precision := precision m; mask := mask m;
     samples := samples m;
     training_step_outputs := training_step_outputs m;
     validation_step_outputs := validation_step_outputs m;
     training := v; logged := logged m |}.

(** [self.log(name, value, ...)]: the metric joins the logger's record. *)
Definition log (m : Model) (name : string) (value : Q) : Model :=
  {| batch_size := batch_size m; max_hops := max_hops m;
     label_smoothing_rate := label_smoothing_rate m;
     avg_pool_size := avg_pool_size m;
     early_stop := early_stop m; base_poolsize := base_poolsize m;
     node_reward := node_reward m; knowledge_reward := knowledge_reward m;
     pool_reward := pool_reward m; precision := precision m; mask := mask m;
     samples := samples m;
     training_step_outputs := training_step_outputs m;
     validation_step_outputs := validation_step_outputs m;
     training := training m; logged := logged m ++ [(name, value)] |}.

(** *** The hop loop of [forward] *)

(** Everything one pass through the loop body binds, together with the
    smoothing rates handed to the two selectors.  The list of these records is
    kept next to the local variables as a history of the walk; the program
    itself only keeps [result] and the latest binding of each variable. *)
Record Hop : Type := {
  h_ns_rate : Q;
  h_ks_rate : Q;
  h_agent_state : Tensor;
  h_current_node : Array;
  h_current_activation : Tensor;
  h_current_score : Tensor;
  h_prob : Tensor;
  h_node_nll : Q;
  h_knowledge_pool : list (list Item);
  h_knowledge_nll : Q;
  h_raw_kp : Array;
  h_mean_k : Q;
  h_current_reward : list Q;
  h_topk_acc : Array;
  h_reward_detail : Array
}.

(** The tuple line 80 appends to [result]. *)
Definition hop_result (h : Hop) : HopResult :=
  (h_prob h, h_current_reward h, h_node_nll h, h_knowledge_nll h).

(** The local variables of [forward] that live across iterations or are read
    after the loop.  A variable first bound inside the loop is [None] until
    then. *)
Record Locals : Type := {
  world : World;
  agent_state : Tensor;
  current_node : Array;
  current_activation : Tensor;
  current_score : Tensor;
  result : list HopResult;
  knowledge_pool : option (list (list Item));
  raw_kp : option Array;
  current_reward : option (list Q);
  topk_acc : option Array;
  reward_detail : option Array;
  hops : list Hop
}.

(** Lines 70-78: the three calls of one hop, from the variables as they stand. *)
Definition hop_calls (m : Model) (batch : Batch) (all_node_embedding input_info : Tensor)
    (l : Locals) : World * Hop :=
  let '(w1, (agent_state', current_node', current_activation', current_score',
             prob, node_nll)) :=
    node_selector (world l) (nodes batch, adj batch, label batch)
      all_node_embedding input_info (agent_state l)
      (current_node l, current_activation l, current_score l)
      (training m) (label_smoothing_rate m) in
  let '(w2, (knowledge_pool', knowledge_nll, raw_kp', mean_k)) :=
    knowledge_selector w1 (gold_k batch, nodes batch) agent_state' current_score'
      (label_smoothing_rate m) in
  let '(current_reward', topk_acc', reward_detail') :=
    reward_function (node_reward m) (knowledge_reward m) (pool_reward m)
      (base_poolsize m) (gold_k batch) (gold_n batch) current_node'
      knowledge_pool' raw_kp' in
  (w2, {| h_ns_rate := label_smoothing_rate m;
          h_ks_rate := label_smoothing_rate m;
          h_agent_state := agent_state';
          h_current_node := current_node';
          h_current_activation := current_activation';
          h_current_score := current_score';
          h_prob := prob;
          h_node_nll := node_nll;
          h_knowledge_pool := knowledge_pool';
          h_knowledge_nll := knowledge_nll;
          h_raw_kp := raw_kp';
          h_mean_k := mean_k;
          h_current_reward := current_reward';
          h_topk_acc := topk_acc';
          h_reward_detail := reward_detail' |}).

(** Lines 70-80: the assignments of one hop and the append to [result]. *)
Definition hop_body (m : Model) (batch : Batch) (all_node_embedding input_info : Tensor)
    (l : Locals) : Locals * Hop :=
  let '(w, h) := hop_calls m batch all_node_embedding input_info l in
  ({| world := w;
      agent_state := h_agent_state h;
      current_node := h_current_node h;
      current_activation := h_current_activation h;
      current_score := h_current_score h;
      result := result l ++ [hop_result h];
      knowledge_pool := Some (h_knowledge_pool h);
      raw_kp := Some (h_raw_kp h);
      current_reward := Some (h_current_reward h);
      topk_acc := Some (h_topk_acc h);
      reward_detail := Some (h_reward_detail h);
      hops := hops l ++ [h] |}, h).

(** Lines 82-84: the test that leaves the loop. *)
Definition stops (m : Model) (h : Hop) : bool :=
  truthy (early_stop m) && Qltb (h_mean_k h) (avg_pool_size m).

(** Lines 69-84, with [steps] iterations of [range(0, max_hops)] left. *)
Fixpoint hop_loop (m : Model) (batch : Batch) (all_node_embedding input_info : Tensor)
    (steps : nat) (l : Locals) : Locals :=
  match steps with
  | O => l
  | S steps' =>
      let '(l', h) := hop_body m batch all_node_embedding input_info l in
      if stops m h then l'
      else hop_loop m batch all_node_embedding input_info steps' l'
  end.

(** Lines 58-84: the set-up and the loop; the variables as they stand when
    the loop is left. *)
Definition walk (m : Model) (w : World) (batch : Batch) : res Locals :=
  let '(w1, input_info) := inputlayer w (embedding batch) in
  let agent_state := input_info in
  let current_node := root batch in
  let current_activation := zeros (nodes batch) in
  let current_score := zeros (nodes batch) in
  let '(w2, all_node_embedding) := score_nodes w1 (nodes batch) (adj batch) in
  steps ← py_range (max_hops m);
  Ok (hop_loop m batch all_node_embedding input_info steps
        {| world := w2;
           agent_state := agent_state;
           current_node := current_node;
           current_activation := current_activation;
           current_score := current_score;
           result := [];
           knowledge_pool := None;
           raw_kp := None;
           current_reward := None;
           topk_acc := None;
           reward_detail := None;
           hops := [] |}).

(** Reading a local variable. *)
Definition read {A : Type} (name : string) (v : option A) : res A :=
  match v with
  | Some a => Ok a
  | None => Raise (UnboundLocalError name)
  end.

(** What [forward] returns:
    [(result, topk_acc, pool_size, reward, reward_detail, knowledge_pool, raw_kp)]. *)
Record ForwardOut : Type := {
  f_result : list HopResult;
  f_topk_acc : Array;
  f_pool_size : nat;
  f_reward : Q;
  f_reward_detail : Array;
  f_knowledge_pool : list (list Item);
  f_raw_kp : Array
}.

(** [sum([len(kp) for kp in knowledge_pool])]. *)
Definition total_len {A : Type} (pools : list (list A)) : nat :=
  fold_left Nat.add (map (fun kp => length kp) pools) 0%nat.

(** Lines 86-92. *)
Definition finish (m : Model) (l : Locals) : res (Model * World * ForwardOut) :=
  pools ← read "knowledge_pool" (knowledge_pool l);
  let pool_size := total_len pools in
  rewards ← read "current_reward" (current_reward l);
  let reward := tsum rewards in
  m' ← (if negb (training m)
        then avg ← py_div (inject_Z (Z.of_nat pool_size)) (length pools);
             Ok (set_avg_pool_size m avg)
        else Ok m);
  topk ← read "topk_acc" (topk_acc l);
  detail ← read "reward_detail" (reward_detail l);
  raw ← read "raw_kp" (raw_kp l);
  Ok (m', world l,
      {| f_result := result l;
         f_topk_acc := topk;
         f_pool_size := pool_size;
         f_reward := reward;
         f_reward_detail := detail;
         f_knowledge_pool := pools;
         f_raw_kp := raw |}).

(** [forward(self, batch)]. *)
Definition forward (m : Model) (w : World) (batch : Batch)
    : res (Model * World * ForwardOut) :=
  l ← walk m w batch;
  finish m l.

(** *** Steps and epoch ends *)

(** [training_step(self, batch, batch_idx)]. *)
Definition training_step (m : Model) (w : World) (batch : Batch) (batch_idx : Z)
    : res (Model * World * Q) :=
  '(m1, w1, out) ← forward m w batch;
  let '(loss, loss_detail) := loss_function (f_result out) in
  let num_steps := length loss in
  loss' ← py_div (tsum loss) num_steps;
  let loss_detail' := array_div loss_detail num_steps in
  let m2 := log m1 "Train Loss" loss' in
  let m3 := set_training_step_outputs m2
              (training_step_outputs m2 ++
               [{| so_topk_acc := f_topk_acc out;
                   so_pool_size := f_pool_size out;
                   so_reward := f_reward out;
                   so_reward_detail := f_reward_detail out;
                   so_loss_detail := loss_detail';
                   so_num_steps := num_steps |}]) in
  Ok (m3, w1, loss').

(** [validation_step(self, batch, batch_idx, dataloader_idx)]. *)
Definition validation_step (m : Model) (w : World) (batch : Batch)
    (batch_idx dataloader_idx : Z) : res (Model * World * Q) :=
  '(m1, w1, out) ← forward m w batch;
  let '(loss, loss_detail) := loss_function (f_result out) in
  let num_steps := length loss in
  loss' ← py_div (tsum loss) num_steps;
  let loss_detail' := array_div loss_detail num_steps in
  let m2 := log m1 "Val Loss" loss' in
  let m3 := set_validation_step_outputs m2
              (validation_step_outputs m2 ++
               [(dataloader_idx,
                 {| so_topk_acc := f_topk_acc out;
                    so_pool_size := f_pool_size out;
                    so_reward := f_reward out;
                    so_reward_detail := f_reward_detail out;
                    so_loss_detail := loss_detail';
                    so_num_steps := num_steps |})]) in
  Ok (m3, w1, loss').

(** The scalar accumulators of [log_outputs] after the loop of lines 147-156:
    [(avg_pool_size, avg_steps, reward, cnt)]. *)
Definition accumulate (step_outputs : list StepOutput) : nat * nat * Q * nat :=
  fold_left
    (fun '(avg_pool_size, avg_steps, reward, cnt) output =>
       ((avg_pool_size + so_pool_size output)%nat,
        (avg_steps + so_num_steps output)%nat,
        reward + so_reward output,
        S cnt))
    step_outputs (0%nat, 0%nat, 0, 0%nat).

(** [log_outputs(self, step_outputs, split, num)]: the scalar metrics and the
    assignment of lines 166-167.  The three numpy accumulators ([loss_detail],
    [reward_detail], [acc]) only feed the logger and are left out: of the
    thirteen [self.log] calls of lines 168-176 the first three are recorded
    here, and the ten that follow them (the entries of the accumulators) are
    not.  What is stated below of [logged] after this method is therefore that
    the log goes on from what was there, and with which entries it goes on;
    never how long it is. *)
Definition log_outputs (m : Model) (step_outputs : list StepOutput)
    (split : string) (num : Q) : res Model :=
  let '(pool_sum, steps_sum, reward_sum, cnt) := accumulate step_outputs in
  '(avg_pool_size', avg_steps, reward) ←
    (if Qltb 0 num
     then avg_steps ← py_div (inject_Z (Z.of_nat steps_sum)) cnt;
          Ok (inject_Z (Z.of_nat pool_sum) / num, avg_steps, reward_sum / num)
     else Ok (inject_Z (Z.of_nat pool_sum), inject_Z (Z.of_nat steps_sum),
              reward_sum));
  let m1 := if training m then set_avg_pool_size m avg_pool_size' else m in
  let m2 := log m1 (split +:+ " reward") reward in
  let m3 := log m2 (split +:+ " avg_pool_size") avg_pool_size' in
  let m4 := log m3 (split +:+ " avg_steps") avg_steps in
  Ok m4.

(** [on_train_epoch_end(self)]. *)
Definition on_train_epoch_end (m : Model) : res Model :=
  first ← py_index0 (samples m);
  num ← py_num first;
  m1 ← log_outputs m (training_step_outputs m) "Train" num;
  Ok (set_training_step_outputs m1 []).

(** *** Descriptions of the walk used in the statements below *)

(** What holds of the variables whenever control is at the loop: [result]
    mirrors the history, and each variable bound in the loop holds what the
    latest hop gave it. *)
Record mirrors (l : Locals) : Prop := {
  mirrors_result : result l = map hop_result (hops l);
  mirrors_pool : knowledge_pool l = h_knowledge_pool <$> last (hops l);
  mirrors_raw : raw_kp l = h_raw_kp <$> last (hops l);
  mirrors_reward : current_reward l = h_current_reward <$> last (hops l);
  mirrors_topk : topk_acc l = h_topk_acc <$> last (hops l);
  mirrors_detail : reward_detail l = h_reward_detail <$> last (hops l)
}.

(** A hop that meets the early-stop test is the last one of the history. *)
Definition stop_is_last (m : Model) (hs : list Hop) : Prop :=
  forall k h, hs !! k = Some h -> stops m h = true -> length hs = S k.

(** A hop that handed the model's smoothing rate to both selectors. *)
Definition rates_of (m : Model) (h : Hop) : Prop :=
  h_ns_rate h = label_smoothing_rate m /\ h_ks_rate h = label_smoothing_rate m.

(** The model after lines 89-90. *)
Definition after_forward (m : Model) (pools : list (list Item)) : Model :=
  if training m then m
  else set_avg_pool_size m
         (inject_Z (Z.of_nat (total_len pools)) / inject_Z (Z.of_nat (length pools))).

(** [sum] of the pool sizes of the steps, then line 163 when [num > 0]: the
    value [log_outputs] holds in its local [avg_pool_size] at line 166. *)
Definition pool_mean (step_outputs : list StepOutput) (num : Q) : Q :=
  let total := inject_Z (Z.of_nat (sum_list_with so_pool_size step_outputs)) in
  if Qltb 0 num then total / num else total.

(** *** The life of a model object

    The states a model built from [m0] can be in: the trainer switches between
    training and evaluation mode and calls the methods in any order. *)
Inductive reachable (m0 : Model) : Model -> Prop :=
| reach_init : reachable m0 m0
| reach_mode m b :
    reachable m0 m -> reachable m0 (set_training m b)
| reach_forward m w batch m' w' out :
    reachable m0 m -> forward m w batch = Ok (m', w', out) -> reachable m0 m'
| reach_training_step m w batch idx m' w' loss :
    reachable m0 m -> training_step m w batch idx = Ok (m', w', loss) ->
    reachable m0 m'
| reach_validation_step m w batch idx didx m' w' loss :
    reachable m0 m -> validation_step m w batch idx didx = Ok (m', w', loss) ->
    reachable m0 m'
| reach_log_outputs m step_outputs split num m' :
    reachable m0 m -> log_outputs m step_outputs split num = Ok m' ->
    reachable m0 m'
| reach_on_train_epoch_end m m' :
    reachable m0 m -> on_train_epoch_end m = Ok m' -> reachable m0 m'.

End Model.

(** ** The parts of the design that live in other files *)

(** Modelled from the spec: [loss_function] of [model_utils] is not among the
    sources.  Section 4.5 gives the per-hop loss as the sum of the two
    supervised terms, [node_nll + knowledge_nll]; the reward and the selection
    probability stay out of it. *)
Definition hop_losses {T : Type} (result : list (T * list Q * Q * Q)) : list Q :=
  map (fun '(prob, reward, node_nll, knowledge_nll) => node_nll + knowledge_nll)
      result.

(** The cumulative reward of a walk in the words of section 4.4: the running
    sum, over the hops, of the reward of each hop. *)
Definition running_reward {T : Type} (result : list (T * list Q * Q * Q)) : Q :=
  tsum (map (fun '(prob, reward, node_nll, knowledge_nll) => tsum reward) result).

(** The same collaborators with another reward function. *)
Definition with_reward {D : Carriers} (C : Collaborators D)
    (rf : pyval -> pyval -> pyval -> pyval -> Array -> Array -> Array ->
          list (list Item) -> Array -> list Q * Array * Array)
    : Collaborators D :=
  {| inputlayer := inputlayer;
     zeros := zeros;
     score_nodes := score_nodes;
     node_selector := node_selector;
     knowledge_selector := knowledge_selector;
     reward_function := rf;
     loss_function := loss_function;
     array_div := array_div |}.

(** The same collaborators with other selectors. *)
Definition with_selectors {D : Carriers} (C : Collaborators D)
    (ns : World -> Array * Tensor * Tensor -> Tensor -> Tensor -> Tensor ->
          Array * Tensor * Tensor -> bool -> Q ->
          World * (Tensor * Array * Tensor * Tensor * Tensor * Q))
    (ks : World -> Array * Array -> Tensor -> Tensor -> Q ->
          World * (list (list Item) * Q * Array * Q))
    : Collaborators D :=
  {| inputlayer := inputlayer;
     zeros := zeros;
     score_nodes := score_nodes;
     node_selector := ns;
     knowledge_selector := ks;
     reward_function := reward_function;
     loss_function := loss_function;
     array_div := array_div |}.

(** The loss a step returns, or the exception it raises. *)
Definition loss_of {D : Carriers} (r : res (Model * World * Q)) : res Q :=
  '(_, _, loss) ← r; Ok loss.

(** Whether a local variable is bound. *)
Definition bound {A : Type} (v : option A) : bool :=
  match v with Some _ => true | None => false end.

(** Two states of the walk that differ at most in the rewards and in what
    [reward_function] returned beside them. *)
Record same_but_reward {D : Carriers} (l1 l2 : Locals) : Prop := {
  sbr_world : world l1 = world l2;
  sbr_agent_state : agent_state l1 = agent_state l2;
  sbr_current_node : current_node l1 = current_node l2;
  sbr_current_activation : current_activation l1 = current_activation l2;
  sbr_current_score : current_score l1 = current_score l2;
  sbr_losses : hop_losses (result l1) = hop_losses (result l2);
  sbr_pool : knowledge_pool l1 = knowledge_pool l2;
  sbr_raw : raw_kp l1 = raw_kp l2;
  sbr_reward : bound (current_reward l1) = bound (current_reward l2);
  sbr_topk : bound (topk_acc l1) = bound (topk_acc l2);
  sbr_detail : bound (reward_detail l1) = bound (reward_detail l2)
}.

Section SpecModelled.

Context {K : Type} `{EqDecision K}.

(** Modelled from the spec: the ranking of scored knowledge items used by the
    knowledge selector and by [reward_function] (neither is among the
    sources): items ordered by decreasing score, ties in arrival order. *)
Fixpoint insert_ranked (x : K * Q) (l : list (K * Q)) : list (K * Q) :=
  match l with
  | [] => [x]
  | y :: l' => if Qltb (snd y) (snd x) then x :: y :: l'
               else y :: insert_ranked x l'
  end.

Definition rank (l : list (K * Q)) : list (K * Q) :=
  fold_right insert_ranked [] l.

(** Modelled from the spec: the selection rule of the knowledge selector
    (section 4.3), absent from the sources.  The items scoring above the
    threshold are kept; when that natural cut is smaller than the floor
    [min_poolsize] the selection is padded up with the top-scored items. *)
Definition select_items (threshold : Q) (min_poolsize : nat)
    (candidates : list (K * Q)) : list K :=
  let ranked := rank candidates in
  let cut := filter (fun x => Qltb threshold (snd x) = true) ranked in
  fst <$> (if (length cut <? min_poolsize)%nat
           then take min_poolsize ranked
           else cut).

(** Modelled from the spec: the running pool is an ordered set, and a hop
    accumulates its selection into it as a deduplicated union (section 4.3). *)
Definition pool_union (pool selected : list K) : list K :=
  fold_left (fun p x => if decide (x ∈ p) then p else p ++ [x]) selected pool.

(** Modelled from the spec: one knowledge-pool call of a walk, from the pool of
    the previous hop to the pool of this one (section 4.3; the class
    [KnowledgeSelector] is absent from the sources). *)
Definition knowledge_pool_call (threshold : Q) (min_poolsize : nat)
    (pool : list K) (candidates : list (K * Q)) : list K :=
  pool_union pool (select_items threshold min_poolsize candidates).

(** Modelled from the spec: the pools of a whole walk, one per hop, starting
    from the empty pool; [per_hop] lists the candidates met at each hop. *)
Fixpoint walk_pools (threshold : Q) (min_poolsize : nat) (pool : list K)
    (per_hop : list (list (K * Q))) : list (list K) :=
  match per_hop with
  | [] => []
  | candidates :: rest =>
      let pool' := knowledge_pool_call threshold min_poolsize pool candidates in
      pool' :: walk_pools threshold min_poolsize pool' rest
  end.

(** Modelled from the spec: top-k accuracy of [reward_function] (section 4.4
    and the glossary; the function is absent from the sources).  An example
    counts as a hit at cutoff [k] when a gold item is among the [k] best-scored
    items of its pool; the cutoff All takes the full pool.  The accuracy at a
    cutoff is the fraction of examples that hit, and 0 for an empty batch. *)
Definition hit (gold : list K) (top : list (K * Q)) : bool :=
  existsb (fun x => bool_decide (fst x ∈ gold)) top.

Definition hit_at (k : nat) (pool : list (K * Q)) (gold : list K) : bool :=
  hit gold (take k (rank pool)).

Definition hit_all (pool : list (K * Q)) (gold : list K) : bool :=
  hit gold (rank pool).

Definition fraction (hits n : nat) : Q :=
  match n with
  | O => 0
  | S _ => inject_Z (Z.of_nat hits) / inject_Z (Z.of_nat n)
  end.

Definition accuracy (hits : list (K * Q) -> list K -> bool)
    (examples : list (list (K * Q) * list K)) : Q :=
  fraction (length (filter (fun e => hits (fst e) (snd e) = true) examples))
           (length examples).

Definition top1 := accuracy (hit_at 1).
Definition top5 := accuracy (hit_at 5).
Definition top10 := accuracy (hit_at 10).
Definition topAll := accuracy hit_all.

End SpecModelled.

(** ** A small concrete setting

    One example per batch with four gold knowledge items.  The hidden state
    counts the hops; hop [n] puts the first [2 n] gold items into the pool and
    reports that size as the mean pool size; the reward of a hop is the size of
    the pool; both supervised terms repeat the smoothing rate they were
    given. *)

#[local] Instance toy_data : Carriers := {|
  World := nat;
  Tensor := Q;
  Array := list nat;
  Item := nat
|}.

#[local] Instance toy : Collaborators toy_data := {|
  inputlayer := fun w t => (w, t);
  zeros := fun _ => 0;
  score_nodes := fun w _ adj => (w, adj);
  node_selector := fun w '(nodes, _, _) _ _ agent '(_, act, score) _ rate =>
    (S w, (agent + 1, firstn 1 (skipn w nodes), act + 1, score + 1, 1 # 2, rate));
  knowledge_selector := fun w '(gold_k, _) _ _ rate =>
    let pool := firstn (2 * w) gold_k in
    (w, ([pool], rate + rate, [], inject_Z (Z.of_nat (length pool))));
  reward_function := fun _ _ _ _ _ _ _ pools _ =>
    (map (fun kp => inject_Z (Z.of_nat (length kp))) pools, [], []);
  loss_function := fun result => (hop_losses result, []);
  array_div := fun a _ => a
|}.

Definition toy_opt : gmap string pyval :=
  <["batch_size" := PInt 1]>
  (<["max_hops" := PInt 2]>
  (<["early_stop" := PBool true]>
  (<["base_poolsize" := PInt 40]>
  (<["reward" := PList [PFloat 1; PFloat 1; PFloat (1 # 10)]]>
  (<["precision" := PStr "32"]>
  (<["samples" := PList [PInt 1; PInt 1; PInt 1]]>
  (<["hidden_dim" := PInt 8]>
  (<["propagation_rate" := PFloat (1 # 2)]>
  (<["min_poolsize" := PInt 1]>
  (<["rollouts" := PInt 1]>
  (<["lr" := PFloat (1 # 1000)]>
  (<["epochs" := PInt 1]>
  (<["device" := PStr "cpu"]>
  (<["label_smoothing_rate" := PFloat (3 # 10)]> ∅)))))))))))))).

Definition toy_model : Model :=
  {| batch_size := PInt 1;
     max_hops := PInt 2;
     label_smoothing_rate := 0.15;
     avg_pool_size := 0;
     early_stop := PBool true;
     base_poolsize := PInt 40;
     node_reward := PFloat 1;
     knowledge_reward := PFloat 1;
     pool_reward := PFloat (1 # 10);
     precision := PStr "32";
     mask := -1e6;
     samples := PList [PInt 1; PInt 1; PInt 1];
     training_step_outputs := [];
     validation_step_outputs := [];
     training := true;
     logged := [] |}.

Definition toy_batch : Batch :=
  {| embedding := 0;
     root := [0%nat];
     nodes := [1%nat; 2%nat; 3%nat];
     adj := 0;
     label := 0;
     gold_k := [7%nat; 8%nat; 9%nat; 10%nat];
     gold_n := [1%nat] |}.


(** The toy model once its stored threshold is 3, as after a validation pass. *)
Definition toy_model_3 : Model := set_avg_pool_size toy_model 3.

(** The toy configuration with an empty hop range, and the model built from it. *)
Definition toy_opt_0 : gmap string pyval := <["max_hops" := PInt 0]> toy_opt.

Definition toy_model_0 : Model :=
  {| batch_size := PInt 1;
     max_hops := PInt 0;
     label_smoothing_rate := 0.15;
     avg_pool_size := 0;
     early_stop := PBool true;
     base_poolsize := PInt 40;
     node_reward := PFloat 1;
     knowledge_reward := PFloat 1;
     pool_reward := PFloat (1 # 10);
     precision := PStr "32";
     mask := -1e6;
     samples := PList [PInt 1; PInt 1; PInt 1];
     training_step_outputs := [];
     validation_step_outputs := [];
     training := true;
     logged := [] |}.

(** What a training step that gathered four items in two hops leaves behind. *)
Definition toy_output : StepOutput :=
  {| so_topk_acc := [];
     so_pool_size := 4;
     so_reward := 4;
     so_reward_detail := [];
     so_loss_detail := [];
     so_num_steps := 2 |}.

(** The toy configuration in half precision. *)
Definition toy_opt_16 : gmap string pyval := <["precision" := PStr "16"]> toy_opt.

(** ** The rest of the class *)

(** The keys of the configuration that [__init__] reads first, in the order of
    lines 21-29, before it builds any collaborator (which may read further
    keys). *)
Definition leading_keys : list string :=
  ["batch_size"; "max_hops"; "early_stop"; "base_poolsize"; "reward";
   "precision"].

(** [len(v)]. *)
Definition py_len (v : pyval) : res nat :=
  match v with
  | PList l => Ok (length l)
  | PStr s => Ok (String.length s)
  | _ => Raise TypeError
  end.

(** [v[k]] for an index [k >= 0]. *)
Definition py_index (v : pyval) (k : nat) : res pyval :=
  match v with
  | PList l => match l !! k with
               | Some x => Ok x
               | None => Raise IndexError
               end
  | PStr s => match String.get k s with
              | Some c => Ok (PStr (String c EmptyString))
              | None => Raise IndexError
              end
  | _ => Raise TypeError
  end.

(** [a / b]. *)
Definition py_truediv (a b : Q) : res Q :=
  if Qeq_bool b 0 then Raise ZeroDivisionError else Ok (a / b).

(** [a // b] on floats: the floor of the quotient. *)
Definition py_floordiv (a b : Q) : res Q :=
  if Qeq_bool b 0 then Raise ZeroDivisionError
  else Ok (inject_Z (Qfloor (a / b))).

(** [int(x)]: truncation towards zero. *)
Definition py_int (x : Q) : Z := Z.quot (Qnum x) (Zpos (Qden x)).

(** [sum([i == k for i in idx_list])]. *)
Definition count_idx (k : Z) (idx_list : list Z) : nat :=
  fold_left Nat.add (map (fun i => if (i =? k)%Z then 1%nat else 0%nat) idx_list)
            0%nat.

(** [[sum(idx[0:i + 1]) for i in range(len(idx))]]. *)
Definition running_totals (idx : list nat) : list nat :=
  map (fun i => fold_left Nat.add (take (S i) idx) 0%nat) (seq 0 (length idx)).

(** [l[a:b]] for bounds [a, b >= 0]. *)
Definition py_slice {A : Type} (a b : nat) (l : list A) : list A :=
  take (b - a) (drop a l).

Section Epochs.

Context {D : Carriers} {C : Collaborators D}.

(** Line 43, the value of [self.steps]:
    [int(1 + ((self.samples[0] / opt["rollouts"]) // self.batch_size))].
    The quotients are taken in exact arithmetic.  Python takes them in
    binary64; for integer operands the two agree as long as the numbers stay
    below [2^53] (the bound of [steps_closed_form]), and which exception a
    zero divisor raises does not depend on the rounding. *)
Definition steps (m : Model) (opt : gmap string pyval) : res Z :=
  first ← py_index0 (samples m);
  rollouts ← getitem opt "rollouts";
  a ← py_num first;
  b ← py_num rollouts;
  q ← py_truediv a b;
  c ← py_num (batch_size m);
  f ← py_floordiv q c;
  Ok (py_int (1 + f)).

(** One call of lines 128-136:
    [self.log_outputs([list(i.values())[0] for i in
       self.validation_step_outputs[a:b]], split, num=self.samples[k])]. *)
Definition log_slice (m : Model) (a b : nat) (split : string) (k : nat)
    : res Model :=
  let step_outputs := map snd (py_slice a b (validation_step_outputs m)) in
  v ← py_index (samples m) k;
  num ← py_num v;
  log_outputs m step_outputs split num.

(** [on_validation_epoch_end(self)]. *)
Definition on_validation_epoch_end (m : Model) : res Model :=
  let idx_list := map fst (validation_step_outputs m) in
  n ← py_len (samples m);
  m' ← (if (n =? 5)%nat
        then
          let idx := [count_idx 0 idx_list; count_idx 1 idx_list;
                      count_idx 2 idx_list; count_idx 3 idx_list] in
          let idx := running_totals idx in
          m1 ← log_slice m 0 (nth 0 idx 0%nat) "Val_Seen" 1;
          m2 ← log_slice m1 (nth 0 idx 0%nat) (nth 1 idx 0%nat) "Val_UnSeen" 2;
          m3 ← log_slice m2 (nth 1 idx 0%nat) (nth 2 idx 0%nat) "Test_Seen" 3;
          log_slice m3 (nth 2 idx 0%nat) (nth 3 idx 0%nat) "Test_UnSeen" 4
        else
          let idx := [count_idx 0 idx_list; count_idx 1 idx_list] in
          let idx := running_totals idx in
          m1 ← log_slice m 0 (nth 0 idx 0%nat) "Val" 1;
          log_slice m1 (nth 0 idx 0%nat) (nth 1 idx 0%nat) "Test" 2);
  Ok (set_validation_step_outputs m' []).

(** The same call on the outputs of one data loader: what lines 128-136 are
    after. *)
Definition log_loader (m : Model) (loader : Z) (split : string) (k : nat)
    : res Model :=
  let step_outputs :=
    map snd (filter (fun o => fst o = loader) (validation_step_outputs m)) in
  v ← py_index (samples m) k;
  num ← py_num v;
  log_outputs m step_outputs split num.

(** The end of a validation epoch, loader by loader. *)
Definition validation_epoch_by_loader (m : Model) : res Model :=
  n ← py_len (samples m);
  m' ← (if (n =? 5)%nat
        then
          m1 ← log_loader m 0 "Val_Seen" 1;
          m2 ← log_loader m1 1 "Val_UnSeen" 2;
          m3 ← log_loader m2 2 "Test_Seen" 3;
          log_loader m3 3 "Test_UnSeen" 4
        else
          m1 ← log_loader m 0 "Val" 1;
          log_loader m1 1 "Test" 2);
  Ok (set_validation_step_outputs m' []).

(** A run of [n] training steps, as the trainer makes them within one epoch. *)
Inductive training_run (m : Model) (w : World) : nat -> Model -> World -> Prop :=
| run_start : training_run m w 0 m w
| run_step n m1 w1 batch idx m2 w2 loss :
    training_run m w n m1 w1 ->
    training_step m1 w1 batch idx = Ok (m2, w2, loss) ->
    training_run m w (S n) m2 w2.

End Epochs.

(** The toy model with validation outputs from two data loaders waiting, and
    the same with the five sample counts of the seen/unseen evaluation. *)
Definition toy_model_val : Model :=
  set_training
    (set_validation_step_outputs toy_model
       [(0%Z, toy_output); (0%Z, toy_output); (1%Z, toy_output)])
    false.

Definition toy_model_val5 : Model :=
  {| batch_size := PInt 1;
     max_hops := PInt 2;
     label_smoothing_rate := 0.15;
     avg_pool_size := 3;
     early_stop := PBool true;
     base_poolsize := PInt 40;
     node_reward := PFloat 1;
     knowledge_reward := PFloat 1;
     pool_reward := PFloat (1 # 10);
     precision := PStr "32";
     mask := -1e6;
     samples := PList [PInt 8; PInt 2; PInt 2; PInt 2; PInt 2];
     training_step_outputs := [];
     validation_step_outputs :=
       [(0%Z, toy_output); (1%Z, toy_output); (2%Z, toy_output);
        (3%Z, toy_output)];
     training := false;
     logged := [] |}.

(** The toy model had the configuration given [max_hops] as a float. *)
Definition toy_model_float : Model :=
  {| batch_size := PInt 1;
     max_hops := PFloat 2;
     label_smoothing_rate := 0.15;
     avg_pool_size := 0;
     early_stop := PBool true;
     base_poolsize := PInt 40;
     node_reward := PFloat 1;
     knowledge_reward := PFloat 1;
     pool_reward := PFloat (1 # 10);
     precision := PStr "32";
     mask := -1e6;
     samples := PList [PInt 1; PInt 1; PInt 1];
     training_step_outputs := [];
     validation_step_outputs := [];
     training := true;
     logged := [] |}.

(** The toy model with early stopping switched off and a threshold of 3. *)
Definition toy_model_no_stop : Model :=
  {| batch_size := PInt 1;
     max_hops := PInt 2;
     label_smoothing_rate := 0.15;
     avg_pool_size := 3;
     early_stop := PBool false;
     base_poolsize := PInt 40;
     node_reward := PFloat 1;
     knowledge_reward := PFloat 1;
     pool_reward := PFloat (1 # 10);
     precision := PStr "32";
     mask := -1e6;
     samples := PList [PInt 1; PInt 1; PInt 1];
     training_step_outputs := [];
     validation_step_outputs := [];
     training := true;
     logged := [] |}.

(** The toy collaborators met with an empty batch: no pools come back. *)
Definition toy_empty : Collaborators toy_data :=
  {| inputlayer := @inputlayer _ toy;
     zeros := @zeros _ toy;
     score_nodes := @score_nodes _ toy;
     node_selector := @node_selector _ toy;
     knowledge_selector := fun w _ _ _ rate => (w, ([], rate + rate, [], 0));
     reward_function := @reward_function _ toy;
     loss_function := @loss_function _ toy;
     array_div := @array_div _ toy |}.

(** Selectors that behave as the toy ones when handed the smoothing rate
    [0.15] and do something else altogether at any other rate. *)
Definition picky_node_selector :
    nat -> list nat * Q * Q -> Q -> Q -> Q -> list nat * Q * Q -> bool -> Q ->
    nat * (Q * list nat * Q * Q * Q * Q) :=
  fun w a e i s t tr rate =>
    if Qeq_bool rate 0.15
    then @node_selector _ toy w a e i s t tr rate
    else (w, (0, [], 0, 0, 0, 0)).

Definition picky_knowledge_selector :
    nat -> list nat * list nat -> Q -> Q -> Q ->
    nat * (list (list nat) * Q * list nat * Q) :=
  fun w a s c rate =>
    if Qeq_bool rate 0.15
    then @knowledge_selector _ toy w a s c rate
    else (w, ([], 0, [], 0)).

(** A configuration with the sizes of a real run. *)
Definition wow_opt : gmap string pyval :=
  <["rollouts" := PInt 4]>
  (<["batch_size" := PInt 16]>
  (<["samples" := PList [PInt 1000; PInt 100; PInt 100]]> toy_opt)).

(** * Properties *)

(** ** Numbers and results *)

(** [run] closes [t = v] for a closed program [t] by evaluating it; [v] may
    still hold places to be filled in with the outcome. *)
Ltac run :=
  match goal with
  | |- ?t = _ =>
      let v := eval vm_compute in t in
      transitivity v; [vm_compute; reflexivity | reflexivity]
  end.

Lemma Qltb_lt (x y : Q) : Qltb x y = true <-> x < y.
Proof. unfold Qltb, Qlt. apply Z.ltb_lt. Qed.

Lemma bind_Ok {A B : Type} (r : res A) (k : A -> res B) (b : B) :
  r ≫= k = Ok b -> exists a, r = Ok a /\ k a = Ok b.
Proof.
  destruct r as [a|e]; cbn; intros E.
  - exists a. split; [reflexivity | exact E].
  - discriminate E.
Qed.

Lemma read_Ok {A : Type} (name : string) (v : option A) (a : A) :
  read name v = Ok a -> v = Some a.
Proof. destruct v; cbn; congruence. Qed.

Lemma py_div_Ok (x q : Q) (n : nat) :
  py_div x n = Ok q -> n <> 0%nat /\ q = x / inject_Z (Z.of_nat n).
Proof. destruct n; cbn; intros E; [discriminate E | split; congruence]. Qed.

Section Proofs.

Context {D : Carriers} {C : Collaborators D}.

(** ** One hop *)

Lemma hop_calls_rates (m : Model) (batch : Batch) (e i : Tensor) (l : Locals) :
  h_ns_rate (snd (hop_calls m batch e i l)) = label_smoothing_rate m /\
  h_ks_rate (snd (hop_calls m batch e i l)) = label_smoothing_rate m.
Proof.
  unfold hop_calls.
  destruct (node_selector _ _ _ _ _ _ _ _) as [w1 [[[[[a n] act] sc] p] nll]].
  destruct (knowledge_selector _ _ _ _ _) as [w2 [[[kp knll] raw] mk]].
  destruct (reward_function _ _ _ _ _ _ _ _ _) as [[r t] d].
  split; reflexivity.
Qed.

Lemma hop_body_eq (m : Model) (batch : Batch) (e i : Tensor) (l l' : Locals) (h : Hop) :
  hop_body m batch e i l = (l', h) ->
  h = snd (hop_calls m batch e i l) /\
  result l' = result l ++ [hop_result h] /\
  hops l' = hops l ++ [h] /\
  knowledge_pool l' = Some (h_knowledge_pool h) /\
  raw_kp l' = Some (h_raw_kp h) /\
  current_reward l' = Some (h_current_reward h) /\
  topk_acc l' = Some (h_topk_acc h) /\
  reward_detail l' = Some (h_reward_detail h).
Proof.
  unfold hop_body. destruct (hop_calls m batch e i l) as [w h0].
  intros E. injection E as <- <-. cbn. repeat split; reflexivity.
Qed.

(** ** The loop *)

Lemma hop_body_mirrors (m : Model) (batch : Batch) (e i : Tensor) (l l' : Locals) (h : Hop) :
  mirrors l -> hop_body m batch e i l = (l', h) -> mirrors l'.
Proof.
  intros M E. apply hop_body_eq in E.
  destruct E as (_ & Er & Eh & Ep & Eraw & Erew & Et & Ed).
  split; rewrite Eh, ?last_snoc; cbn; try assumption.
  rewrite Er, (mirrors_result l M), map_app. reflexivity.
Qed.

Lemma hop_loop_mirrors (m : Model) (batch : Batch) (e i : Tensor) (steps : nat) :
  forall l, mirrors l -> mirrors (hop_loop m batch e i steps l).
Proof.
  induction steps as [|n IH]; intros l M; cbn [hop_loop]; [exact M|].
  destruct (hop_body m batch e i l) as [l' h] eqn:E.
  pose proof (hop_body_mirrors _ _ _ _ _ _ _ M E) as M'.
  destruct (stops m h); [exact M' | apply IH, M'].
Qed.

(** The loop runs at least once when [range] is not empty, and at most
    [steps] times. *)
Lemma hop_loop_length (m : Model) (batch : Batch) (e i : Tensor) (steps : nat) :
  forall l,
    (length (hops (hop_loop m batch e i steps l)) <= length (hops l) + steps)%nat /\
    (Nat.min 1 steps + length (hops l) <= length (hops (hop_loop m batch e i steps l)))%nat.
Proof.
  induction steps as [|n IH]; intros l; cbn [hop_loop]; [cbn; lia|].
  destruct (hop_body m batch e i l) as [l' h] eqn:E.
  apply hop_body_eq in E. destruct E as (_ & _ & Eh & _).
  destruct (stops m h).
  - rewrite Eh, length_app. cbn. lia.
  - destruct (IH l') as [U L]. rewrite Eh, length_app in U, L. cbn in U, L.
    split; [lia|]. destruct n; cbn in *; lia.
Qed.

Lemma hop_loop_stops (m : Model) (batch : Batch) (e i : Tensor) (steps : nat) :
  forall l,
    Forall (fun h => stops m h = false) (hops l) ->
    stop_is_last m (hops (hop_loop m batch e i steps l)).
Proof.
  induction steps as [|n IH]; intros l F; cbn [hop_loop].
  - intros k h Hk Hs.
    pose proof (Forall_lookup_1 _ _ _ _ F Hk) as N. cbn in N. congruence.
  - destruct (hop_body m batch e i l) as [l' h] eqn:E.
    apply hop_body_eq in E. destruct E as (_ & _ & Eh & _).
    destruct (stops m h) eqn:S.
    + intros k h' Hk Hs. rewrite Eh in Hk |- *. rewrite length_app. cbn.
      destruct (decide (k < length (hops l))%nat) as [Lt|Ge].
      * rewrite lookup_app_l in Hk by exact Lt.
        pose proof (Forall_lookup_1 _ _ _ _ F Hk) as N. cbn in N. congruence.
      * apply lookup_lt_Some in Hk. rewrite length_app in Hk. cbn in Hk. lia.
    + apply IH. rewrite Eh. apply Forall_app. split; [exact F|].
      constructor; [exact S | constructor].
Qed.

(** Without a stop the loop uses up the whole range. *)
Lemma hop_loop_full (m : Model) (batch : Batch) (e i : Tensor) (steps : nat) :
  forall l,
    Forall (fun h => stops m h = false) (hops (hop_loop m batch e i steps l)) ->
    length (hops (hop_loop m batch e i steps l)) = (length (hops l) + steps)%nat.
Proof.
  induction steps as [|n IH]; intros l F; cbn [hop_loop] in *; [lia|].
  destruct (hop_body m batch e i l) as [l' h] eqn:E.
  apply hop_body_eq in E. destruct E as (_ & _ & Eh & _).
  destruct (stops m h) eqn:S.
  - rewrite Eh in F. apply Forall_app in F. destruct F as [_ F].
    inversion F; congruence.
  - rewrite (IH l' F), Eh, length_app. cbn. lia.
Qed.

(** Every hop hands the model's smoothing rate to both selectors. *)
Lemma hop_loop_rates (m : Model) (batch : Batch) (e i : Tensor) (steps : nat) :
  forall l,
    Forall (fun h => h_ns_rate h = label_smoothing_rate m /\
                     h_ks_rate h = label_smoothing_rate m) (hops l) ->
    Forall (fun h => h_ns_rate h = label_smoothing_rate m /\
                     h_ks_rate h = label_smoothing_rate m)
           (hops (hop_loop m batch e i steps l)).
Proof.
  induction steps as [|n IH]; intros l F; cbn [hop_loop]; [exact F|].
  destruct (hop_body m batch e i l) as [l' h] eqn:E.
  apply hop_body_eq in E. destruct E as (Ec & _ & Eh & _).
  assert (Forall (fun h => h_ns_rate h = label_smoothing_rate m /\
                           h_ks_rate h = label_smoothing_rate m) (hops l')) as F'.
  { rewrite Eh. apply Forall_app. split; [exact F|].
    constructor; [|constructor]. rewrite Ec. apply hop_calls_rates. }
  destruct (stops m h); [exact F' | apply IH, F'].
Qed.

(** ** The walk and the forward pass *)

Lemma walk_Ok (m : Model) (w : World) (batch : Batch) (l : Locals) :
  walk m w batch = Ok l ->
  exists steps,
    py_range (max_hops m) = Ok steps /\
    mirrors l /\
    stop_is_last m (hops l) /\
    (length (hops l) <= steps)%nat /\
    (Nat.min 1 steps <= length (hops l))%nat /\
    (Forall (fun h => stops m h = false) (hops l) -> length (hops l) = steps) /\
    Forall (rates_of m) (hops l).
Proof.
  unfold walk.
  destruct (inputlayer w (embedding batch)) as [w1 info].
  destruct (score_nodes w1 (nodes batch) (adj batch)) as [w2 emb].
  destruct (py_range (max_hops m)) as [steps|err]; cbn; [|discriminate].
  intros E. injection E as <-. exists steps.
  set (l0 := {| world := w2; agent_state := info; current_node := root batch;
                current_activation := zeros (nodes batch);
                current_score := zeros (nodes batch); result := [];
                knowledge_pool := None; raw_kp := None; current_reward := None;
                topk_acc := None; reward_detail := None; hops := [] |}).
  assert (mirrors l0) as M0 by (split; reflexivity).
  destruct (hop_loop_length m batch emb info steps l0) as [U L].
  cbn in U, L.
  split; [reflexivity|].
  split; [apply hop_loop_mirrors, M0|].
  split; [apply hop_loop_stops; constructor|].
  split; [exact U|].
  split; [destruct steps; cbn in *; lia|].
  split; [intros F; apply (hop_loop_full m batch emb info steps l0 F)|].
  apply hop_loop_rates. constructor.
Qed.

Lemma walk_returns (m : Model) (w : World) (batch : Batch) (steps : nat) :
  py_range (max_hops m) = Ok steps -> exists l, walk m w batch = Ok l.
Proof.
  intros R. unfold walk.
  destruct (inputlayer w (embedding batch)) as [w1 info].
  destruct (score_nodes w1 (nodes batch) (adj batch)) as [w2 emb].
  rewrite R. cbn. eexists. reflexivity.
Qed.

Lemma finish_Ok (m m' : Model) (l : Locals) (w' : World) (out : ForwardOut) :
  mirrors l ->
  finish m l = Ok (m', w', out) ->
  exists h,
    last (hops l) = Some h /\
    w' = world l /\
    m' = after_forward m (h_knowledge_pool h) /\
    (training m = false -> h_knowledge_pool h <> []) /\
    f_result out = map hop_result (hops l) /\
    f_topk_acc out = h_topk_acc h /\
    f_pool_size out = total_len (h_knowledge_pool h) /\
    f_reward out = tsum (h_current_reward h) /\
    f_reward_detail out = h_reward_detail h /\
    f_knowledge_pool out = h_knowledge_pool h /\
    f_raw_kp out = h_raw_kp h.
Proof.
  intros [Mr Mp Mraw Mrew Mt Md] E. unfold finish in E.
  rewrite Mr, Mp, Mraw, Mrew, Mt, Md in E.
  destruct (last (hops l)) as [h|]; cbn in E; [|discriminate].
  exists h. unfold after_forward.
  destruct (training m); cbn in E.
  - injection E as <- <- <-. cbn. repeat split; try reflexivity. discriminate.
  - destruct (h_knowledge_pool h) as [|kp pools] eqn:P; cbn in E; [discriminate|].
    injection E as <- <- <-. cbn. repeat split; try reflexivity. discriminate.
Qed.

Lemma forward_Ok (m m' : Model) (w w' : World) (batch : Batch) (out : ForwardOut) :
  forward m w batch = Ok (m', w', out) ->
  exists l h,
    walk m w batch = Ok l /\
    last (hops l) = Some h /\
    w' = world l /\
    m' = after_forward m (h_knowledge_pool h) /\
    (training m = false -> h_knowledge_pool h <> []) /\
    f_result out = map hop_result (hops l) /\
    f_topk_acc out = h_topk_acc h /\
    f_pool_size out = total_len (h_knowledge_pool h) /\
    f_reward out = tsum (h_current_reward h) /\
    f_reward_detail out = h_reward_detail h /\
    f_knowledge_pool out = h_knowledge_pool h /\
    f_raw_kp out = h_raw_kp h.
Proof.
  unfold forward. intros E. apply bind_Ok in E. destruct E as (l & W & F).
  destruct (walk_Ok _ _ _ _ W) as (steps & _ & M & _).
  destruct (finish_Ok _ _ _ _ _ M F) as (h & H).
  exists l, h. split; [exact W | exact H].
Qed.

(** The forward pass returns once a hop has run, unless evaluation meets an
    empty batch of pools. *)
Lemma forward_returns (m : Model) (w : World) (batch : Batch) (n : nat) :
  py_range (max_hops m) = Ok (S n) ->
  training m = true ->
  exists r, forward m w batch = Ok r.
Proof.
  intros R T. destruct (walk_returns m w batch _ R) as [l W].
  destruct (walk_Ok _ _ _ _ W) as (steps & R' & [Mr Mp Mraw Mrew Mt Md] & _ & _ & L & _).
  rewrite R in R'. injection R' as <-. cbn in L.
  unfold forward. rewrite W. cbn. unfold finish.
  rewrite Mp, Mraw, Mrew, Mt, Md.
  destruct (last (hops l)) as [h|] eqn:E.
  - cbn. rewrite T. cbn. eexists. reflexivity.
  - apply last_None in E. rewrite E in L. cbn in L. lia.
Qed.

(** With an empty range no hop runs and line 86 reads an unbound variable. *)
Lemma forward_unbound (m : Model) (w : World) (batch : Batch) :
  py_range (max_hops m) = Ok 0%nat ->
  forward m w batch = Raise (UnboundLocalError "knowledge_pool").
Proof.
  intros R. unfold forward, walk.
  destruct (inputlayer w (embedding batch)) as [w1 info].
  destruct (score_nodes w1 (nodes batch) (adj batch)) as [w2 emb].
  rewrite R. reflexivity.
Qed.

(** ** Steps *)

Lemma last_map {A B : Type} (f : A -> B) (l : list A) :
  last (map f l) = f <$> last l.
Proof.
  induction l as [|a [|b l] IH]; [reflexivity | reflexivity |].
  change (last (map f (b :: l)) = f <$> last (b :: l)). exact IH.
Qed.

Lemma training_step_Ok (m m' : Model) (w w' : World) (batch : Batch) (idx : Z) (loss : Q) :
  training_step m w batch idx = Ok (m', w', loss) ->
  exists mf out,
    forward m w batch = Ok (mf, w', out) /\
    py_div (tsum (fst (loss_function (f_result out))))
           (length (fst (loss_function (f_result out)))) = Ok loss /\
    avg_pool_size m' = avg_pool_size mf /\
    training m' = training mf /\
    label_smoothing_rate m' = label_smoothing_rate mf.
Proof.
  unfold training_step. intros E. apply bind_Ok in E.
  destruct E as ([[mf w1] out] & F & E). exists mf, out.
  destruct (loss_function (f_result out)) as [ls d]. cbn [fst].
  apply bind_Ok in E. destruct E as (q & Dv & E).
  injection E as <- <- <-. repeat split; [exact F | exact Dv].
Qed.

Lemma validation_step_Ok (m m' : Model) (w w' : World) (batch : Batch) (idx didx : Z)
    (loss : Q) :
  validation_step m w batch idx didx = Ok (m', w', loss) ->
  exists mf out,
    forward m w batch = Ok (mf, w', out) /\
    py_div (tsum (fst (loss_function (f_result out))))
           (length (fst (loss_function (f_result out)))) = Ok loss /\
    avg_pool_size m' = avg_pool_size mf /\
    training m' = training mf /\
    label_smoothing_rate m' = label_smoothing_rate mf.
Proof.
  unfold validation_step. intros E. apply bind_Ok in E.
  destruct E as ([[mf w1] out] & F & E). exists mf, out.
  destruct (loss_function (f_result out)) as [ls d]. cbn [fst].
  apply bind_Ok in E. destruct E as (q & Dv & E).
  injection E as <- <- <-. repeat split; [exact F | exact Dv].
Qed.

Lemma accumulate_pool_sum (step_outputs : list StepOutput) :
  fst (fst (fst (accumulate step_outputs))) = sum_list_with so_pool_size step_outputs.
Proof.
  unfold accumulate.
  assert (forall outs a b c d,
            fst (fst (fst (fold_left
              (fun '(avg_pool_size, avg_steps, reward, cnt) output =>
                 ((avg_pool_size + so_pool_size output)%nat,
                  (avg_steps + so_num_steps output)%nat,
                  reward + so_reward output, S cnt)) outs (a, b, c, d))))
            = (a + sum_list_with so_pool_size outs)%nat) as G.
  { induction outs as [|o outs IH]; intros a b c d; cbn; [lia|].
    rewrite IH. lia. }
  apply G.
Qed.

Lemma log_outputs_Ok (m m' : Model) (step_outputs : list StepOutput) (split : string)
    (num : Q) :
  log_outputs m step_outputs split num = Ok m' ->
  avg_pool_size m' = (if training m then pool_mean step_outputs num
                      else avg_pool_size m) /\
  training m' = training m /\
  label_smoothing_rate m' = label_smoothing_rate m.
Proof.
  unfold log_outputs, pool_mean. rewrite <- accumulate_pool_sum.
  destruct (accumulate step_outputs) as [[[ps ss] rs] cnt]. cbn [fst].
  intros E. apply bind_Ok in E. destruct E as ([[a b] c] & V & E).
  injection E as <-.
  destruct (Qltb 0 num).
  - apply bind_Ok in V. destruct V as (q & _ & V). injection V as <- <- <-.
    destruct (training m) eqn:T; cbn; rewrite ?T; repeat split; reflexivity.
  - injection V as <- <- <-.
    destruct (training m) eqn:T; cbn; rewrite ?T; repeat split; reflexivity.
Qed.

Lemma on_train_epoch_end_Ok (m m' : Model) :
  on_train_epoch_end m = Ok m' ->
  exists num m1,
    log_outputs m (training_step_outputs m) "Train" num = Ok m1 /\
    avg_pool_size m' = avg_pool_size m1 /\
    training m' = training m1 /\
    label_smoothing_rate m' = label_smoothing_rate m1.
Proof.
  unfold on_train_epoch_end. intros E.
  apply bind_Ok in E. destruct E as (first & _ & E).
  apply bind_Ok in E. destruct E as (num & _ & E).
  apply bind_Ok in E. destruct E as (m1 & L & E).
  injection E as <-. exists num, m1. repeat split; exact L.
Qed.

Lemma forward_frame (m m' : Model) (w w' : World) (batch : Batch) (out : ForwardOut) :
  forward m w batch = Ok (m', w', out) ->
  training m' = training m /\
  label_smoothing_rate m' = label_smoothing_rate m /\
  avg_pool_size m' =
    (if training m then avg_pool_size m
     else inject_Z (Z.of_nat (f_pool_size out)) /
          inject_Z (Z.of_nat (length (f_knowledge_pool out)))).
Proof.
  intros E. apply forward_Ok in E.
  destruct E as (l & h & _ & _ & _ & -> & _ & _ & _ & Ps & _ & _ & Pk & _).
  rewrite Ps, Pk. unfold after_forward.
  destruct (training m) eqn:T; cbn; rewrite ?T; repeat split; reflexivity.
Qed.

(** No method touches the smoothing rate. *)
Lemma reachable_rate (m0 m : Model) :
  reachable m0 m -> label_smoothing_rate m = label_smoothing_rate m0.
Proof.
  induction 1 as [|m b _ IH|m w batch m' w' out _ IH F
                  |m w batch idx m' w' loss _ IH T
                  |m w batch idx didx m' w' loss _ IH V
                  |m outs split num m' _ IH L
                  |m m' _ IH E].
  - reflexivity.
  - exact IH.
  - apply forward_frame in F. destruct F as (_ & R & _). congruence.
  - apply training_step_Ok in T.
    destruct T as (mf & out & F & _ & _ & _ & R).
    apply forward_frame in F. destruct F as (_ & R' & _). congruence.
  - apply validation_step_Ok in V.
    destruct V as (mf & out & F & _ & _ & _ & R).
    apply forward_frame in F. destruct F as (_ & R' & _). congruence.
  - apply log_outputs_Ok in L. destruct L as (_ & _ & R). congruence.
  - apply on_train_epoch_end_Ok in E.
    destruct E as (num & m1 & L & _ & _ & R).
    apply log_outputs_Ok in L. destruct L as (_ & _ & R'). congruence.
Qed.

End Proofs.

(** ** Construction *)

Lemma getitem_Ok (opt : gmap string pyval) (k : string) (v : pyval) :
  getitem opt k = Ok v -> opt !! k = Some v.
Proof. unfold getitem. destruct (opt !! k); congruence. Qed.

Lemma getitem_insert_ne (opt : gmap string pyval) (k k' : string) (v : pyval) :
  k <> k' -> getitem (<[k := v]> opt) k' = getitem opt k'.
Proof. intros N. unfold getitem. rewrite lookup_insert_ne by exact N. reflexivity. Qed.

Lemma py_eq_str_true (v : pyval) (s : string) :
  py_eq_str v s = true <-> v = PStr s.
Proof.
  destruct v; cbn; try (split; [discriminate | congruence]).
  rewrite String.eqb_eq. split; congruence.
Qed.

Lemma init_Ok {D : Carriers} (opt : gmap string pyval) (m : Model) :
  init opt = Ok m ->
  opt !! "precision" = Some (precision m) /\
  mask m = (if py_eq_str (precision m) "16" then -6e4 else -1e6) /\
  label_smoothing_rate m = 0.15 /\
  avg_pool_size m = 0 /\
  training m = true.
Proof.
  unfold init. intros E.
  apply bind_Ok in E. destruct E as (bs & _ & E).
  apply bind_Ok in E. destruct E as (mh & _ & E).
  apply bind_Ok in E. destruct E as (es & _ & E).
  apply bind_Ok in E. destruct E as (bp & _ & E).
  apply bind_Ok in E. destruct E as (rw & _ & E).
  apply bind_Ok in E. destruct E as ([[nr kr] pr] & _ & E).
  apply bind_Ok in E. destruct E as (prec & P & E).
  apply bind_Ok in E. destruct E as (smp & _ & E).
  injection E as <-. cbn. apply getitem_Ok in P. repeat split; assumption.
Qed.

(** An entry under a key that [__init__] never reads changes nothing. *)
Lemma init_ignores_rate_entry {D : Carriers} (opt : gmap string pyval) (v : pyval) :
  init (<["label_smoothing_rate" := v]> opt) = init opt.
Proof.
  unfold init. rewrite !getitem_insert_ne by discriminate. reflexivity.
Qed.

(** ** The reward returned by the forward pass *)

(** C1, as the design document words it, fails.  In the small setting both
    hops run (the stored threshold is 0, so the walk is never cut short), the
    hops earn 2 and 4, and [forward] returns 4 where the running sum is 6. *)
Lemma forward_reward_is_not_running_sum :
  exists m' w' out,
    forward toy_model 0%nat toy_batch = Ok (m', w', out) /\
    py_range (max_hops toy_model) = Ok 2%nat /\
    length (f_result out) = 2%nat /\
    f_reward out == 4 /\
    running_reward (f_result out) == 6 /\
    ~ f_reward out == running_reward (f_result out).
Proof.
  do 3 eexists. split; [run|].
  split; [reflexivity|]. split; [reflexivity|].
  split; [vm_compute; reflexivity|]. split; [vm_compute; reflexivity|].
  intros H. vm_compute in H. discriminate H.
Qed.

(** C1, amended: whenever [forward] returns, its scalar reward is
    [torch.sum] of the reward of the last hop that ran, and of that hop alone;
    the rewards of the earlier hops are kept in [result] but are not added. *)
Theorem forward_reward_last_hop {D : Carriers} {C : Collaborators D} (m m' : Model) (w w' : World)
    (batch : Batch) (out : ForwardOut) :
  forward m w batch = Ok (m', w', out) ->
  exists r, last (f_result out) = Some r /\ f_reward out = tsum (hr_reward r).
Proof.
  intros E. apply forward_Ok in E.
  destruct E as (l & h & _ & L & _ & _ & _ & R & _ & _ & Rw & _).
  exists (hop_result h). rewrite R, last_map, L, Rw. split; reflexivity.
Qed.

Lemma forward_reward_last_hop_witness :
  exists m' w' out r,
    forward toy_model 0%nat toy_batch = Ok (m', w', out) /\
    last (f_result out) = Some r /\
    hr_reward r = [inject_Z 4] /\
    f_reward out = tsum (hr_reward r).
Proof.
  assert (exists m' w' out,
            forward toy_model 0%nat toy_batch = Ok (m', w', out) /\
            last (f_result out) = Some (1 # 2, [inject_Z 4], 0.15, 0.15 + 0.15))
    as (m' & w' & out & F & L).
  { do 3 eexists. split; [run | reflexivity]. }
  destruct (forward_reward_last_hop toy_model m' 0%nat w' toy_batch out F)
    as (r & Lr & Rr).
  exists m', w', out, r. rewrite L in Lr. injection Lr as <-.
  repeat split; [exact F | exact L | exact Rr].
Defined.

(** ** Early stopping *)

(** C3: with early stopping enabled, a hop whose reported mean pool size is
    below the stored [avg_pool_size] is the last hop of the walk: no further
    hop runs, and [result] ends with that hop's entry. *)
Theorem early_stop_ends_walk {D : Carriers} {C : Collaborators D} (m : Model) (w : World)
    (batch : Batch) (l : Locals) (k : nat) (h : Hop) :
  walk m w batch = Ok l ->
  truthy (early_stop m) = true ->
  hops l !! k = Some h ->
  h_mean_k h < avg_pool_size m ->
  hops l !! S k = None /\ length (hops l) = S k /\ length (result l) = S k.
Proof.
  intros W T Hk Lt. apply walk_Ok in W.
  destruct W as (steps & _ & M & St & _).
  assert (stops m h = true) as S.
  { unfold stops. rewrite T. cbn. apply Qltb_lt, Lt. }
  pose proof (St k h Hk S) as Len.
  split; [apply lookup_ge_None; lia|]. split; [exact Len|].
  rewrite (mirrors_result l M), length_map. exact Len.
Qed.

Lemma early_stop_ends_walk_witness :
  exists l h,
    walk toy_model_3 0%nat toy_batch = Ok l /\
    py_range (max_hops toy_model_3) = Ok 2%nat /\
    hops l !! 0%nat = Some h /\
    h_mean_k h == 2 /\
    avg_pool_size toy_model_3 == 3 /\
    hops l !! 1%nat = None /\ length (hops l) = 1%nat /\ length (result l) = 1%nat.
Proof.
  assert (exists l h, walk toy_model_3 0%nat toy_batch = Ok l /\
                      hops l !! 0%nat = Some h /\ h_mean_k h = inject_Z 2)
    as (l & h & W & Hk & Mk).
  { do 2 eexists. split; [run|]. split; reflexivity. }
  exists l, h.
  assert (h_mean_k h < avg_pool_size toy_model_3) as Lt
    by (rewrite Mk; reflexivity).
  pose proof (early_stop_ends_walk toy_model_3 0%nat toy_batch l 0 h W
                eq_refl Hk Lt) as R.
  split; [exact W|]. split; [reflexivity|]. split; [exact Hk|].
  split; [rewrite Mk; reflexivity|]. split; [reflexivity | exact R].
Defined.

(** ** The mask and the smoothing rate *)

(** C8: the mask built at construction is [-6e4] exactly when the configured
    precision is the string ["16"], and [-1e6] in every other case. *)
Theorem mask_by_precision {D : Carriers} (opt : gmap string pyval) (m : Model) :
  init opt = Ok m ->
  opt !! "precision" = Some (precision m) /\
  (mask m = -6e4 <-> precision m = PStr "16") /\
  (mask m = -1e6 <-> precision m <> PStr "16").
Proof.
  intros E. apply init_Ok in E. destruct E as (P & Mk & _).
  split; [exact P|]. rewrite Mk.
  destruct (py_eq_str (precision m) "16") eqn:B.
  - apply py_eq_str_true in B. split; split; intros H.
    + exact B.
    + reflexivity.
    + vm_compute in H. discriminate H.
    + contradiction.
  - assert (precision m <> PStr "16") as N.
    { intros H. apply py_eq_str_true in H. congruence. }
    split; split; intros H.
    + vm_compute in H. discriminate H.
    + contradiction.
    + exact N.
    + reflexivity.
Qed.

Lemma mask_by_precision_witness :
  (init toy_opt = Ok toy_model /\
   precision toy_model = PStr "32" /\ mask toy_model = -1e6) /\
  (exists m, init toy_opt_16 = Ok m /\
             precision m = PStr "16" /\ mask m = -6e4).
Proof.
  split.
  - split; [reflexivity|]. split; [reflexivity|].
    apply (mask_by_precision toy_opt toy_model eq_refl). discriminate.
  - eexists. split; [reflexivity|]. split; [reflexivity|].
    apply (mask_by_precision toy_opt_16 _ eq_refl). reflexivity.
Defined.

(** One hop, the loop, the walk and the forward pass call the selectors at
    the model's smoothing rate only: selectors that agree with the given ones
    at that rate can take their place. *)
Lemma hop_body_with_selectors {D : Carriers} (C : Collaborators D) ns ks
    (m : Model) (batch : Batch) (e i : Tensor) (l : Locals) :
  (forall w a e' i' s t tr,
     ns w a e' i' s t tr (label_smoothing_rate m)
     = node_selector w a e' i' s t tr (label_smoothing_rate m)) ->
  (forall w a s c,
     ks w a s c (label_smoothing_rate m)
     = knowledge_selector w a s c (label_smoothing_rate m)) ->
  hop_body (C := with_selectors C ns ks) m batch e i l
  = hop_body (C := C) m batch e i l.
Proof.
  intros Hns Hks. unfold hop_body, hop_calls.
  cbn [with_selectors node_selector knowledge_selector reward_function].
  rewrite Hns.
  destruct (node_selector _ _ _ _ _ _ _ _) as [w1 [[[[[a n] act] sc] p] nll]].
  rewrite Hks. reflexivity.
Qed.

Lemma hop_loop_with_selectors {D : Carriers} (C : Collaborators D) ns ks
    (m : Model) (batch : Batch) (e i : Tensor) (steps : nat) :
  (forall w a e' i' s t tr,
     ns w a e' i' s t tr (label_smoothing_rate m)
     = node_selector w a e' i' s t tr (label_smoothing_rate m)) ->
  (forall w a s c,
     ks w a s c (label_smoothing_rate m)
     = knowledge_selector w a s c (label_smoothing_rate m)) ->
  forall l,
    hop_loop (C := with_selectors C ns ks) m batch e i steps l
    = hop_loop (C := C) m batch e i steps l.
Proof.
  intros Hns Hks. induction steps as [|n IH]; intros l; cbn [hop_loop];
    [reflexivity|].
  rewrite (hop_body_with_selectors C ns ks m batch e i l Hns Hks).
  destruct (hop_body (C := C) m batch e i l) as [l' h].
  destruct (stops m h); [reflexivity | apply IH].
Qed.

Lemma walk_with_selectors {D : Carriers} (C : Collaborators D) ns ks
    (m : Model) (w : World) (batch : Batch) :
  (forall w a e' i' s t tr,
     ns w a e' i' s t tr (label_smoothing_rate m)
     = node_selector w a e' i' s t tr (label_smoothing_rate m)) ->
  (forall w a s c,
     ks w a s c (label_smoothing_rate m)
     = knowledge_selector w a s c (label_smoothing_rate m)) ->
  walk (C := with_selectors C ns ks) m w batch = walk (C := C) m w batch.
Proof.
  intros Hns Hks. unfold walk.
  cbn [with_selectors inputlayer score_nodes zeros].
  destruct (inputlayer w (embedding batch)) as [w1 info].
  destruct (score_nodes w1 (nodes batch) (adj batch)) as [w2 emb].
  destruct (py_range (max_hops m)) as [steps|err]; [|reflexivity].
  cbn [mbind res_bind]. f_equal.
  apply (hop_loop_with_selectors C ns ks m batch emb info steps Hns Hks).
Qed.



(** ** What the forward pass returns *)

(** C10: when [forward] returns, [topk_acc], [knowledge_pool] and [raw_kp] are
    the values of the last hop that ran, each hop having overwritten those of
    the hop before, while [result] keeps one entry per hop; with a non-empty
    range of hops a pass in training mode does return; with [max_hops = 0] no
    hop runs and the pass fails on the unbound [knowledge_pool]. *)
Theorem forward_returns_final_hop {D : Carriers} {C : Collaborators D} (m : Model) (w : World)
    (batch : Batch) :
  (forall m' w' out,
     forward m w batch = Ok (m', w', out) ->
     exists l h,
       walk m w batch = Ok l /\
       last (hops l) = Some h /\
       f_result out = map hop_result (hops l) /\
       f_topk_acc out = h_topk_acc h /\
       f_knowledge_pool out = h_knowledge_pool h /\
       f_raw_kp out = h_raw_kp h) /\
  (forall n,
     py_range (max_hops m) = Ok (S n) -> training m = true ->
     exists r, forward m w batch = Ok r) /\
  (py_range (max_hops m) = Ok 0%nat ->
   forward m w batch = Raise (UnboundLocalError "knowledge_pool")).
Proof.
  split; [|split].
  - intros m' w' out E. apply forward_Ok in E.
    destruct E as (l & h & W & L & _ & _ & _ & R & T & _ & _ & _ & P & Rw).
    exists l, h. repeat split; assumption.
  - intros n R T. exact (forward_returns m w batch n R T).
  - apply forward_unbound.
Qed.

Lemma forward_returns_final_hop_witness :
  (exists m' w' out l h,
     forward toy_model 0%nat toy_batch = Ok (m', w', out) /\
     walk toy_model 0%nat toy_batch = Ok l /\
     length (hops l) = 2%nat /\
     last (hops l) = Some h /\
     h_knowledge_pool h = [[7; 8; 9; 10]]%nat /\
     f_result out = map hop_result (hops l) /\
     f_topk_acc out = h_topk_acc h /\
     f_knowledge_pool out = h_knowledge_pool h /\
     f_raw_kp out = h_raw_kp h) /\
  (max_hops toy_model_0 = PInt 0 /\
   forward toy_model_0 0%nat toy_batch = Raise (UnboundLocalError "knowledge_pool")).
Proof.
  split.
  - destruct (proj1 (proj2 (forward_returns_final_hop toy_model 0%nat toy_batch))
                1%nat eq_refl eq_refl) as [[[m' w'] out] F].
    destruct (proj1 (forward_returns_final_hop toy_model 0%nat toy_batch)
                m' w' out F) as (l & h & W & L & R & T & P & Rw).
    exists m', w', out, l, h.
    assert (walk toy_model 0%nat toy_batch = Ok l ->
            length (hops l) = 2%nat /\
            (last (hops l) = Some h -> h_knowledge_pool h = [[7; 8; 9; 10]]%nat))
      as G.
    { intros W'. vm_compute in W'. injection W' as <-.
      split; [reflexivity|]. intros L'. vm_compute in L'. injection L' as <-.
      reflexivity. }
    destruct (G W) as [Len Kp].
    repeat split; try assumption. exact (Kp L).
  - split; [reflexivity|].
    exact (proj2 (proj2 (forward_returns_final_hop toy_model_0 0%nat toy_batch))
             eq_refl).
Defined.

(** ** The stored threshold *)

(** C2, as the design document words it, fails.  The model stays in training
    mode throughout: a training step leaves the stored threshold at 0, and the
    end of the training epoch (through [log_outputs], lines 166-167) then sets
    it to 4. *)
Lemma train_epoch_end_moves_avg_pool_size :
  exists m1 w1 loss m2,
    training toy_model = true /\
    training_step toy_model 0%nat toy_batch 0 = Ok (m1, w1, loss) /\
    training m1 = true /\
    avg_pool_size m1 == 0 /\
    on_train_epoch_end m1 = Ok m2 /\
    training m2 = true /\
    avg_pool_size m2 == 4 /\
    ~ avg_pool_size m2 == avg_pool_size m1.
Proof.
  do 4 eexists. split; [reflexivity|]. split; [run|].
  split; [reflexivity|]. split; [vm_compute; reflexivity|].
  split; [run|]. split; [reflexivity|].
  split; [vm_compute; reflexivity|].
  intros H. vm_compute in H. discriminate H.
Qed.

(** C2, amended: [forward] writes [avg_pool_size] only when the model is not
    in training mode (it then stores pool size over batch length), so in
    training mode [forward], [training_step] and [validation_step] leave the
    field unchanged; [log_outputs] writes it only when the model is in
    training mode (it then stores the pool-size average it has just computed)
    and leaves it unchanged otherwise. *)
Theorem avg_pool_size_writes {D : Carriers} {C : Collaborators D} (m : Model) (w : World)
    (batch : Batch) (idx didx : Z) (step_outputs : list StepOutput)
    (split : string) (num : Q) :
  (forall m' w' out,
     forward m w batch = Ok (m', w', out) ->
     avg_pool_size m' =
       if training m then avg_pool_size m
       else inject_Z (Z.of_nat (f_pool_size out)) /
            inject_Z (Z.of_nat (length (f_knowledge_pool out)))) /\
  (forall m' w' loss,
     training m = true ->
     training_step m w batch idx = Ok (m', w', loss) ->
     avg_pool_size m' = avg_pool_size m) /\
  (forall m' w' loss,
     training m = true ->
     validation_step m w batch idx didx = Ok (m', w', loss) ->
     avg_pool_size m' = avg_pool_size m) /\
  (forall m',
     log_outputs m step_outputs split num = Ok m' ->
     avg_pool_size m' =
       if training m then pool_mean step_outputs num else avg_pool_size m).
Proof.
  split; [|split; [|split]].
  - intros m' w' out F. apply forward_frame in F. apply F.
  - intros m' w' loss T S. apply training_step_Ok in S.
    destruct S as (mf & out & F & _ & A & _).
    apply forward_frame in F. destruct F as (_ & _ & A'). rewrite T in A'.
    congruence.
  - intros m' w' loss T S. apply validation_step_Ok in S.
    destruct S as (mf & out & F & _ & A & _).
    apply forward_frame in F. destruct F as (_ & _ & A'). rewrite T in A'.
    congruence.
  - intros m' L. apply log_outputs_Ok in L. apply L.
Qed.

Lemma avg_pool_size_writes_witness :
  (exists m' w' loss,
     training toy_model_3 = true /\
     training_step toy_model_3 0%nat toy_batch 0 = Ok (m', w', loss) /\
     avg_pool_size m' = avg_pool_size toy_model_3) /\
  (exists m' w' loss,
     validation_step toy_model_3 0%nat toy_batch 0 0 = Ok (m', w', loss) /\
     avg_pool_size m' = avg_pool_size toy_model_3) /\
  (exists m' w' out,
     training (set_training toy_model_3 false) = false /\
     forward (set_training toy_model_3 false) 0%nat toy_batch = Ok (m', w', out) /\
     f_pool_size out = 2%nat /\
     length (f_knowledge_pool out) = 1%nat /\
     avg_pool_size m' = inject_Z 2 / inject_Z 1) /\
  (exists m',
     log_outputs toy_model_3 [toy_output] "Train" 2 = Ok m' /\
     pool_mean [toy_output] 2 = inject_Z 4 / 2 /\
     avg_pool_size m' = pool_mean [toy_output] 2) /\
  (exists m',
     log_outputs (set_training toy_model_3 false) [toy_output] "Val" 2 = Ok m' /\
     avg_pool_size m' = avg_pool_size toy_model_3).
Proof.
  split; [|split; [|split; [|split]]].
  - do 3 eexists. split; [reflexivity|].
    assert (training_step toy_model_3 0%nat toy_batch 0 = Ok _) as S by run.
    split; [exact S|].
    exact (proj1 (proj2 (avg_pool_size_writes toy_model_3 0%nat toy_batch 0 0
                           [] "Train" 0)) _ _ _ eq_refl S).
  - do 3 eexists.
    assert (validation_step toy_model_3 0%nat toy_batch 0 0 = Ok _) as S
      by run.
    split; [exact S|].
    exact (proj1 (proj2 (proj2 (avg_pool_size_writes toy_model_3 0%nat toy_batch
                                  0 0 [] "Train" 0))) _ _ _ eq_refl S).
  - do 3 eexists. split; [reflexivity|].
    assert (forward (set_training toy_model_3 false) 0%nat toy_batch = Ok _) as F
      by run.
    split; [exact F|]. split; [reflexivity|]. split; [reflexivity|].
    exact (proj1 (avg_pool_size_writes (set_training toy_model_3 false) 0%nat
                    toy_batch 0 0 [] "Val" 0) _ _ _ F).
  - eexists.
    assert (log_outputs toy_model_3 [toy_output] "Train" 2 = Ok _) as L by run.
    split; [exact L|]. split; [reflexivity|].
    exact (proj2 (proj2 (proj2 (avg_pool_size_writes toy_model_3 0%nat toy_batch
                                  0 0 [toy_output] "Train" 2))) _ L).
  - eexists.
    assert (log_outputs (set_training toy_model_3 false) [toy_output] "Val" 2
            = Ok _) as L by run.
    split; [exact L|].
    exact (proj2 (proj2 (proj2 (avg_pool_size_writes
                                  (set_training toy_model_3 false) 0%nat toy_batch
                                  0 0 [toy_output] "Val" 2))) _ L).
Defined.

(** ** The training loss *)

(** *** The reward function has no say in the walk *)

Lemma hop_body_with_reward {D : Carriers} (C : Collaborators D) rf
    (m : Model) (batch : Batch) (e i : Tensor) (l1 l2 : Locals) :
  same_but_reward l1 l2 ->
  same_but_reward (fst (hop_body (C := with_reward C rf) m batch e i l1))
                  (fst (hop_body (C := C) m batch e i l2)) /\
  stops m (snd (hop_body (C := with_reward C rf) m batch e i l1)) =
  stops m (snd (hop_body (C := C) m batch e i l2)).
Proof.
  intros [Ew Ea En Eac Es El Ep Er _ _ _].
  unfold hop_body, hop_calls. cbn [with_reward node_selector knowledge_selector
                                   reward_function].
  rewrite Ew, Ea, En, Eac, Es.
  destruct (node_selector _ _ _ _ _ _ _ _) as [w1 [[[[[a n] act] sc] p] nll]].
  destruct (knowledge_selector _ _ _ _ _) as [w2 [[[kp knll] raw] mk]].
  destruct (rf _ _ _ _ _ _ _ _ _) as [[r1 t1] d1].
  destruct (reward_function _ _ _ _ _ _ _ _ _) as [[r2 t2] d2].
  cbn [fst snd]. split; [|reflexivity].
  split; cbn [fst world agent_state current_node current_activation
              current_score result knowledge_pool raw_kp current_reward
              topk_acc reward_detail bound]; try reflexivity.
  unfold hop_losses. rewrite !map_app. f_equal. exact El.
Qed.

Lemma hop_loop_with_reward {D : Carriers} (C : Collaborators D) rf
    (m : Model) (batch : Batch) (e i : Tensor) (steps : nat) :
  forall l1 l2,
    same_but_reward l1 l2 ->
    same_but_reward (hop_loop (C := with_reward C rf) m batch e i steps l1)
                    (hop_loop (C := C) m batch e i steps l2).
Proof.
  induction steps as [|n IH]; intros l1 l2 R; cbn [hop_loop]; [exact R|].
  destruct (hop_body_with_reward C rf m batch e i l1 l2 R) as [R' St].
  destruct (hop_body (C := with_reward C rf) m batch e i l1) as [l1' h1].
  destruct (hop_body (C := C) m batch e i l2) as [l2' h2].
  cbn [fst snd] in R', St. rewrite St.
  destruct (stops m h2); [exact R' | apply IH, R'].
Qed.

Lemma training_step_with_reward {D : Carriers} (C : Collaborators D) rf
    (m : Model) (w : World) (batch : Batch) (idx : Z) :
  (forall result, fst (loss_function result) = hop_losses result) ->
  loss_of (training_step (C := with_reward C rf) m w batch idx) =
  loss_of (training_step (C := C) m w batch idx).
Proof.
  intros HL. unfold training_step, forward, walk.
  cbn [with_reward inputlayer score_nodes zeros loss_function array_div].
  destruct (inputlayer w (embedding batch)) as [w1 info].
  destruct (score_nodes w1 (nodes batch) (adj batch)) as [w2 emb].
  destruct (py_range (max_hops m)) as [steps|err]; [|reflexivity].
  cbn [mbind res_bind].
  set (l0 := {| world := w2; agent_state := info; current_node := root batch;
                current_activation := zeros (nodes batch);
                current_score := zeros (nodes batch); result := [];
                knowledge_pool := None; raw_kp := None; current_reward := None;
                topk_acc := None; reward_detail := None; hops := [] |}).
  assert (same_but_reward l0 l0) as R0 by (split; reflexivity).
  pose proof (hop_loop_with_reward C rf m batch emb info steps l0 l0 R0)
    as [Ew _ _ _ _ El Ep Er Erw Et Ed].
  set (l1 := hop_loop (C := with_reward C rf) m batch emb info steps l0) in *.
  set (l2 := hop_loop (C := C) m batch emb info steps l0) in *.
  unfold finish. rewrite Ep, Er.
  destruct (knowledge_pool l2) as [pools|]; [|reflexivity].
  destruct (current_reward l1) as [r1|], (current_reward l2) as [r2|];
    try discriminate Erw; [|reflexivity].
  cbn [read mbind res_bind].
  destruct (if negb (training m) then _ else _) as [mf|err]; [|reflexivity].
  cbn [mbind res_bind].
  destruct (topk_acc l1) as [t1|], (topk_acc l2) as [t2|];
    try discriminate Et; [|reflexivity].
  destruct (reward_detail l1) as [d1|], (reward_detail l2) as [d2|];
    try discriminate Ed; [|reflexivity].
  destruct (raw_kp l2) as [raw|]; [|reflexivity].
  cbn [read mbind res_bind f_result].
  pose proof (HL (result l1)) as H1. pose proof (HL (result l2)) as H2.
  destruct (loss_function (result l1)) as [ls1 dt1].
  destruct (loss_function (result l2)) as [ls2 dt2].
  cbn [fst] in H1, H2. subst ls1 ls2. rewrite El.
  destruct (py_div _ _) as [q|err]; reflexivity.
Qed.


Lemma hop_losses_hops {D : Carriers} {C : Collaborators D} (hs : list Hop) :
  hop_losses (map hop_result hs) =
  map (fun h => h_node_nll h + h_knowledge_nll h) hs.
Proof.
  induction hs as [|h hs IH]; [reflexivity|].
  cbn. rewrite <- IH. reflexivity.
Qed.

(** C4: taking the per-hop loss of section 4.5 for [loss_function], the loss a
    training step returns is the mean, over the hops that really ran, of
    [node_nll + knowledge_nll]: the divisor is the number of executed hops,
    which is at least 1 and at most the range of [max_hops]; and the rewards
    do not enter it: with any other reward function the step returns the same
    loss. *)
Theorem training_loss_is_hop_mean {D : Carriers} {C : Collaborators D} (m m' : Model)
    (w w' : World) (batch : Batch) (idx : Z) (loss : Q) :
  (forall result, fst (loss_function result) = hop_losses result) ->
  training_step m w batch idx = Ok (m', w', loss) ->
  exists l steps,
    walk m w batch = Ok l /\
    py_range (max_hops m) = Ok steps /\
    (1 <= length (hops l) <= steps)%nat /\
    loss = tsum (map (fun h => h_node_nll h + h_knowledge_nll h) (hops l)) /
           inject_Z (Z.of_nat (length (hops l))) /\
    forall rf,
      loss_of (training_step (C := with_reward C rf) m w batch idx) = Ok loss.
Proof.
  intros HL S.
  assert (forall rf,
            loss_of (training_step (C := with_reward C rf) m w batch idx)
            = Ok loss) as Indep.
  { intros rf. rewrite (training_step_with_reward C rf m w batch idx HL), S.
    reflexivity. }
  apply training_step_Ok in S.
  destruct S as (mf & out & F & Dv & _).
  apply forward_Ok in F.
  destruct F as (l & h & W & L & _ & _ & _ & R & _).
  rewrite HL, R, hop_losses_hops, length_map in Dv.
  apply py_div_Ok in Dv. destruct Dv as [N ->].
  pose proof (walk_Ok _ _ _ _ W) as (steps & Rg & _ & _ & U & _).
  exists l, steps. repeat split; try assumption. lia.
Qed.

Lemma training_loss_is_hop_mean_witness :
  exists m' w' loss l,
    training_step toy_model_3 0%nat toy_batch 0 = Ok (m', w', loss) /\
    walk toy_model_3 0%nat toy_batch = Ok l /\
    py_range (max_hops toy_model_3) = Ok 2%nat /\
    length (hops l) = 1%nat /\
    loss = tsum (map (fun h => h_node_nll h + h_knowledge_nll h) (hops l)) /
           inject_Z (Z.of_nat (length (hops l))) /\
    loss == 0.45 /\
    loss_of (training_step
               (C := with_reward toy (fun _ _ _ _ _ _ _ _ _ => ([100], [], [])))
               toy_model_3 0%nat toy_batch 0) = Ok loss.
Proof.
  assert (exists m' w' loss,
            training_step toy_model_3 0%nat toy_batch 0 = Ok (m', w', loss) /\
            loss == 0.45) as (m' & w' & loss & S & V).
  { do 3 eexists. split; [run|]. vm_compute. reflexivity. }
  destruct (training_loss_is_hop_mean (C := toy) toy_model_3 m' 0%nat w' toy_batch
              0 loss
              (fun result => eq_refl) S) as (l & steps & W & R & B & E & I).
  exists m', w', loss, l.
  assert (walk toy_model_3 0%nat toy_batch = Ok l -> length (hops l) = 1%nat) as G.
  { intros W'. vm_compute in W'. injection W' as <-. reflexivity. }
  split; [exact S|]. split; [exact W|]. split; [reflexivity|].
  split; [exact (G W)|]. split; [exact E|]. split; [exact V | apply I].
Defined.

(** ** The knowledge pool and the top-k accuracies *)

Section SpecModelledProofs.

Context {K : Type} `{EqDecision K}.

Lemma insert_ranked_perm (x : K * Q) (l : list (K * Q)) :
  insert_ranked x l ≡ₚ x :: l.
Proof.
  induction l as [|y l IH]; cbn; [reflexivity|].
  destruct (Qltb (snd y) (snd x)); [reflexivity|].
  rewrite IH. apply Permutation_swap.
Qed.

Lemma rank_perm (l : list (K * Q)) : rank l ≡ₚ l.
Proof.
  induction l as [|x l IH]; cbn; [reflexivity|].
  rewrite insert_ranked_perm, IH. reflexivity.
Qed.

Lemma select_items_length (threshold : Q) (min_poolsize : nat)
    (candidates : list (K * Q)) :
  (min_poolsize <= length candidates)%nat ->
  (min_poolsize <= length (select_items threshold min_poolsize candidates))%nat.
Proof.
  intros L. unfold select_items. rewrite length_fmap.
  destruct (Nat.ltb_spec
              (length (filter (fun x => Qltb threshold (snd x) = true)
                              (rank candidates))) min_poolsize) as [Short|Long].
  - rewrite length_take, (Permutation_length (rank_perm candidates)). lia.
  - exact Long.
Qed.

Lemma select_items_NoDup (threshold : Q) (min_poolsize : nat)
    (candidates : list (K * Q)) :
  NoDup (fst <$> candidates) ->
  NoDup (select_items threshold min_poolsize candidates).
Proof.
  intros N. unfold select_items.
  assert (NoDup (fst <$> rank candidates)) as Nr
    by (rewrite (rank_perm candidates); exact N).
  destruct (length _ <? min_poolsize)%nat.
  - eapply sublist_NoDup; [exact Nr|]. apply fmap_sublist, sublist_take.
  - eapply sublist_NoDup; [exact Nr|]. apply fmap_sublist, sublist_filter.
Qed.

Lemma pool_union_keeps (selected pool : list K) (x : K) :
  x ∈ pool -> x ∈ pool_union pool selected.
Proof.
  revert pool. induction selected as [|y sel IH]; intros pool Hx; cbn; [exact Hx|].
  apply IH. destruct (decide (y ∈ pool)); [exact Hx|].
  apply elem_of_app. left. exact Hx.
Qed.

Lemma pool_union_adds (selected pool : list K) (x : K) :
  x ∈ selected -> x ∈ pool_union pool selected.
Proof.
  revert pool. induction selected as [|y sel IH]; intros pool Hx; cbn.
  - inversion Hx.
  - apply elem_of_cons in Hx. destruct Hx as [->|Hx]; [|apply IH, Hx].
    apply pool_union_keeps.
    destruct (decide (y ∈ pool)) as [In|Out]; [exact In|].
    apply elem_of_app. right. apply list_elem_of_singleton. reflexivity.
Qed.

End SpecModelledProofs.

Example rank_example :
  rank [(1%nat, 0.2); (2%nat, 0.9); (3%nat, 0.5)]
  = [(2%nat, 0.9); (3%nat, 0.5); (1%nat, 0.2)].
Proof. reflexivity. Qed.

Example select_natural_cut :
  select_items 0.4 1 [(1%nat, 0.2); (2%nat, 0.9); (3%nat, 0.5)] = [2%nat; 3%nat].
Proof. reflexivity. Qed.

Example select_padded :
  select_items 0.95 2 [(1%nat, 0.2); (2%nat, 0.9); (3%nat, 0.5)] = [2%nat; 3%nat].
Proof. reflexivity. Qed.

Example pool_union_example :
  pool_union [5%nat; 2%nat] [2%nat; 3%nat; 3%nat] = [5%nat; 2%nat; 3%nat].
Proof. reflexivity. Qed.

(** The gold item 1 is ranked third: a miss at cutoff 1, a hit from 5 on. *)
Example topk_example :
  let examples := [([(1%nat, 0.2); (2%nat, 0.9); (3%nat, 0.5)], [1%nat])] in
  top1 examples == 0 /\ top5 examples == 1 /\ topAll examples == 1.
Proof. repeat split; vm_compute; reflexivity. Qed.

(** Over a whole walk the pool of each hop contains the pool of the hop
    before it. *)
Lemma walk_pools_monotone {K : Type} `{EqDecision K} (threshold : Q)
    (min_poolsize : nat) (per_hop : list (list (K * Q))) :
  forall (pool : list K) (k : nat) (p q : list K),
    walk_pools threshold min_poolsize pool per_hop !! k = Some p ->
    walk_pools threshold min_poolsize pool per_hop !! S k = Some q ->
    forall x, x ∈ p -> x ∈ q.
Proof.
  induction per_hop as [|c rest IH]; intros pool k p q Hp Hq x Hx;
    [discriminate Hp|].
  cbn in Hp, Hq. destruct k as [|k].
  - cbn in Hp. injection Hp as <-.
    destruct rest as [|c' rest']; [discriminate Hq|].
    cbn in Hq. injection Hq as <-.
    unfold knowledge_pool_call. apply pool_union_keeps, Hx.
  - cbn in Hp. exact (IH _ k p q Hp Hq x Hx).
Qed.

(** C6: taking the selection rule of section 4.3 for the knowledge selector, a
    knowledge-pool call returns a pool that contains every item of the pool of
    the previous hop, and, when candidates are available to fill the floor (at
    least [min_poolsize] distinct ones), has at least [min_poolsize] items. *)
Theorem knowledge_pool_grows {K : Type} `{EqDecision K} (threshold : Q)
    (min_poolsize : nat) (pool : list K) (candidates : list (K * Q)) :
  (forall x, x ∈ pool ->
             x ∈ knowledge_pool_call threshold min_poolsize pool candidates) /\
  (NoDup (fst <$> candidates) ->
   (min_poolsize <= length candidates)%nat ->
   (min_poolsize <=
    length (knowledge_pool_call threshold min_poolsize pool candidates))%nat).
Proof.
  unfold knowledge_pool_call. split.
  - intros x Hx. apply pool_union_keeps, Hx.
  - intros N L.
    pose proof (select_items_length threshold min_poolsize candidates L) as Ls.
    pose proof (select_items_NoDup threshold min_poolsize candidates N) as Ns.
    etransitivity; [exact Ls|].
    apply submseteq_length, NoDup_submseteq; [exact Ns|].
    intros x Hx. apply pool_union_adds, Hx.
Qed.

Lemma knowledge_pool_grows_witness :
  let candidates := [(1%nat, 0.9); (2%nat, 0.2); (3%nat, 0.5)] in
  let pool' := knowledge_pool_call 0.8 2 [5%nat] candidates in
  pool' = [5%nat; 1%nat; 3%nat] /\
  (forall x, x ∈ [5%nat] -> x ∈ pool') /\
  (2 <= length pool')%nat.
Proof.
  intros candidates pool'.
  pose proof (knowledge_pool_grows 0.8 2 [5%nat] candidates) as [Sup Size].
  split; [reflexivity|]. split; [exact Sup|].
  apply Size.
  - cbn. compute_done.
  - cbn. lia.
Defined.

Lemma hit_take_mono {K : Type} `{EqDecision K} (gold : list K) (l : list (K * Q)) :
  forall k k', (k <= k')%nat ->
    hit gold (take k l) = true -> hit gold (take k' l) = true.
Proof.
  unfold hit. induction l as [|x l IH]; intros k k' Le H.
  - rewrite take_nil in H. discriminate H.
  - destruct k as [|k]; [discriminate H|].
    destruct k' as [|k']; [lia|].
    cbn in H |- *. apply orb_true_iff in H. apply orb_true_iff.
    destruct H as [H|H]; [left; exact H | right].
    apply (IH k k'); [lia | exact H].
Qed.

Lemma hit_take_all {K : Type} `{EqDecision K} (gold : list K) (l : list (K * Q))
    (k : nat) :
  hit gold (take k l) = true -> hit gold l = true.
Proof.
  intros H. rewrite <- (take_ge l (Nat.max k (length l))) by lia.
  apply (hit_take_mono gold l k); [lia | exact H].
Qed.

Lemma fraction_mono (a b n : nat) :
  (a <= b)%nat -> fraction a n <= fraction b n.
Proof.
  intros Le. destruct n as [|n]; cbn [fraction]; [apply Qle_refl|].
  unfold Qdiv. apply Qmult_le_compat_r.
  - rewrite <- Zle_Qle. lia.
  - apply Qinv_le_0_compat. change 0 with (inject_Z 0).
    rewrite <- Zle_Qle. lia.
Qed.

Lemma accuracy_mono {K : Type} (h1 h2 : list (K * Q) -> list K -> bool)
    (examples : list (list (K * Q) * list K)) :
  (forall pool gold, h1 pool gold = true -> h2 pool gold = true) ->
  accuracy h1 examples <= accuracy h2 examples.
Proof.
  intros Imp. unfold accuracy. apply fraction_mono.
  induction examples as [|e examples IH]; [reflexivity|].
  rewrite !filter_cons.
  destruct (decide (h1 (fst e) (snd e) = true)) as [H1|N1];
    destruct (decide (h2 (fst e) (snd e) = true)) as [H2|N2]; cbn; try lia.
  exfalso. apply N2, Imp, H1.
Qed.

(** C7: taking the top-k accuracy of section 4.4 for the reward aggregator,
    for any pools of scored items and any gold sets the accuracies are ordered
    top-1 <= top-5 <= top-10 <= top-All. *)
Theorem topk_accuracy_chain {K : Type} `{EqDecision K}
    (examples : list (list (K * Q) * list K)) :
  top1 examples <= top5 examples /\
  top5 examples <= top10 examples /\
  top10 examples <= topAll examples.
Proof.
  unfold top1, top5, top10, topAll. repeat split; apply accuracy_mono;
    intros pool gold; unfold hit_at, hit_all.
  - apply hit_take_mono. lia.
  - apply hit_take_mono. lia.
  - apply hit_take_all.
Qed.

(** * More of the class *)

(** ** Construction, continued *)

Lemma getitem_None (opt : gmap string pyval) (k : string) :
  opt !! k = None -> getitem opt k = Raise (KeyError k).
Proof. unfold getitem. intros ->. reflexivity. Qed.

Lemma getitem_Some (opt : gmap string pyval) (k : string) (v : pyval) :
  opt !! k = Some v -> getitem opt k = Ok v.
Proof. unfold getitem. intros ->. reflexivity. Qed.

(** [__init__] copies five entries of the configuration as they are, unpacks
    the three reward weights, and starts the model in training mode with a
    threshold of 0, no step outputs and nothing logged. *)
Theorem init_fields {D : Carriers} (opt : gmap string pyval) (m : Model) :
  init opt = Ok m ->
  opt !! "batch_size" = Some (batch_size m) /\
  opt !! "max_hops" = Some (max_hops m) /\
  opt !! "early_stop" = Some (early_stop m) /\
  opt !! "base_poolsize" = Some (base_poolsize m) /\
  opt !! "samples" = Some (samples m) /\
  (exists r, opt !! "reward" = Some r /\
             py_unpack3 r = Ok (node_reward m, knowledge_reward m, pool_reward m)) /\
  avg_pool_size m = 0 /\
  training m = true /\
  training_step_outputs m = [] /\
  validation_step_outputs m = [] /\
  logged m = [].
Proof.
  unfold init. intros E.
  apply bind_Ok in E. destruct E as (bs & Hbs & E).
  apply bind_Ok in E. destruct E as (mh & Hmh & E).
  apply bind_Ok in E. destruct E as (es & Hes & E).
  apply bind_Ok in E. destruct E as (bp & Hbp & E).
  apply bind_Ok in E. destruct E as (rw & Hrw & E).
  apply bind_Ok in E. destruct E as ([[nr kr] pr] & Hun & E).
  apply bind_Ok in E. destruct E as (prec & _ & E).
  apply bind_Ok in E. destruct E as (smp & Hsmp & E).
  injection E as <-. cbn.
  apply getitem_Ok in Hbs, Hmh, Hes, Hbp, Hrw, Hsmp.
  repeat split; try assumption. exists rw. split; assumption.
Qed.

Lemma init_fields_witness :
  init toy_opt = Ok toy_model /\
  toy_opt !! "max_hops" = Some (PInt 2) /\
  max_hops toy_model = PInt 2 /\
  avg_pool_size toy_model = 0.
Proof.
  assert (init toy_opt = Ok toy_model) as E by reflexivity.
  destruct (init_fields toy_opt toy_model E) as (_ & Hm & _ & _ & _ & _ & Ha & _).
  split; [exact E|]. split; [exact Hm|]. split; [reflexivity | exact Ha].
Defined.

(** One key of [leading_keys] read: either it is the missing one, or its
    value is there and the reading goes on. *)
Ltac read_key before Hk F Nk :=
  destruct before as [|? before]; cbn in Hk; injection Hk as ? Hk; subst;
  [ rewrite Nk; reflexivity
  | let v := fresh "v" in
    let Hv := fresh "Hv" in
    apply Forall_cons in F; destruct F as [[v Hv] F];
    apply getitem_Some in Hv; rewrite Hv; cbn [mbind res_bind] ].

(** X2: When one of the keys of lines 21-29 is missing, [__init__] raises
    [KeyError] for the first missing one in reading order, provided the
    entries read before it are usable (the reward entry, once read, unpacks
    into three values). *)
Theorem init_first_missing_key {D : Carriers} (opt : gmap string pyval)
    (before after : list string) (k : string) :
  leading_keys = before ++ k :: after ->
  Forall (fun j => is_Some (opt !! j)) before ->
  opt !! k = None ->
  ("reward" ∈ before ->
   exists r t, opt !! "reward" = Some r /\ py_unpack3 r = Ok t) ->
  init opt = Raise (KeyError k).
Proof.
  intros Hk F Nk Hr. unfold leading_keys in Hk. unfold init.
  apply getitem_None in Nk.
  read_key before Hk F Nk. read_key before Hk F Nk. read_key before Hk F Nk.
  read_key before Hk F Nk. read_key before Hk F Nk.
  destruct Hr as (r & [[a b] c] & Hr1 & Hr2); [set_solver|].
  match goal with
  | H : getitem opt "reward" = Ok ?v |- _ =>
      rewrite (getitem_Some _ _ _ Hr1) in H; injection H as <-
  end.
  rewrite Hr2. cbn [mbind res_bind].
  read_key before Hk F Nk.
  destruct before; discriminate Hk.
Qed.

Lemma init_first_missing_key_witness :
  init (delete "precision" toy_opt) = Raise (KeyError "precision").
Proof.
  apply (init_first_missing_key (delete "precision" toy_opt)
           ["batch_size"; "max_hops"; "early_stop"; "base_poolsize"; "reward"]
           [] "precision").
  - reflexivity.
  - repeat (apply Forall_cons; split; [eexists; reflexivity|]). constructor.
  - reflexivity.
  - intros _. eexists _, _. split; reflexivity.
Defined.

(** ** The number of steps per epoch *)

Lemma Qeq_bool_inject_Z_pos (z : Z) : (0 < z)%Z -> Qeq_bool (inject_Z z) 0 = false.
Proof.
  intros H. apply not_true_is_false. intros E. apply Qeq_bool_eq in E.
  unfold Qeq in E. cbn in E. lia.
Qed.

Lemma floor_of_quotient (s r b : Z) :
  (0 < r)%Z -> (0 < b)%Z ->
  Qfloor (inject_Z s / inject_Z r / inject_Z b) = (s / (r * b))%Z.
Proof.
  intros Hr Hb. destruct r as [|pr|pr]; try lia. destruct b as [|pb|pb]; try lia.
  unfold Qfloor. cbn. rewrite !Z.mul_1_r. reflexivity.
Qed.

Lemma py_int_succ (z : Z) : py_int (1 + inject_Z z) = (1 + z)%Z.
Proof. unfold py_int. cbn. rewrite Z.quot_1_r. lia. Qed.

(** X3: With integer sizes in the range where binary64 is exact (a sample
    count [s >= 0], [r > 0] rollouts and a batch size [b > 0] with
    [s + r * b < 2^53]) line 43 sets [self.steps] to [1 + s div (r * b)]: at
    least one step, and enough steps of [r * b] samples to go past [s]. *)
Theorem steps_closed_form {D : Carriers} (m : Model) (opt : gmap string pyval)
    (s r b : Z) (others : list pyval) :
  samples m = PList (PInt s :: others) ->
  opt !! "rollouts" = Some (PInt r) ->
  batch_size m = PInt b ->
  (0 <= s)%Z -> (0 < r)%Z -> (0 < b)%Z ->
  (s + r * b < 2 ^ 53)%Z ->
  exists n,
    steps m opt = Ok n /\
    n = (1 + s / (r * b))%Z /\
    (1 <= n < 2 ^ 53)%Z /\
    ((n - 1) * (r * b) <= s < n * (r * b))%Z.
Proof.
  intros Hs Hr Hb Ps Pr Pb Bd. exists (1 + s / (r * b))%Z.
  split; [|split; [reflexivity|]].
  - unfold steps. rewrite Hs, Hb. cbn [py_index0 mbind res_bind].
    rewrite (getitem_Some _ _ _ Hr). cbn [mbind res_bind py_num].
    unfold py_truediv. rewrite (Qeq_bool_inject_Z_pos r Pr). cbn [mbind res_bind].
    unfold py_floordiv. rewrite (Qeq_bool_inject_Z_pos b Pb). cbn [mbind res_bind].
    rewrite floor_of_quotient by assumption. rewrite py_int_succ. reflexivity.
  - assert (0 < r * b)%Z as P by lia.
    pose proof (Z.div_pos s (r * b) Ps P) as Q0.
    pose proof (Z.mul_div_le s (r * b) P) as L.
    pose proof (Z.mul_succ_div_gt s (r * b) P) as U.
    assert (s / (r * b) <= s)%Z as Le by (apply Z.div_le_upper_bound; nia).
    split; [lia|]. split; nia.
Qed.

Lemma steps_closed_form_witness :
  exists m,
    init wow_opt = Ok m /\
    samples m = PList [PInt 1000; PInt 100; PInt 100] /\
    steps m wow_opt = Ok 16%Z.
Proof.
  assert (exists m, init wow_opt = Ok m /\
                    samples m = PList [PInt 1000; PInt 100; PInt 100] /\
                    batch_size m = PInt 16)
    as (m & E & Hs & Hb).
  { eexists. split; [run|]. split; reflexivity. }
  destruct (steps_closed_form m wow_opt 1000 4 16 _ Hs eq_refl Hb) as
    (n & Hn & -> & _); try lia.
  exists m. split; [exact E|]. split; [exact Hs | exact Hn].
Defined.



(** ** The forward pass, continued *)

(** X5: A forward pass that returns has run at least one hop and at most
    [max_hops] hops, and [result] has one entry per hop. *)
Theorem forward_hop_count {D : Carriers} {C : Collaborators D} (m m' : Model)
    (w w' : World) (batch : Batch) (out : ForwardOut) :
  forward m w batch = Ok (m', w', out) ->
  exists steps,
    py_range (max_hops m) = Ok steps /\
    (1 <= length (f_result out) <= steps)%nat.
Proof.
  intros F. apply forward_Ok in F.
  destruct F as (l & h & W & L & _ & _ & _ & R & _).
  destruct (walk_Ok _ _ _ _ W) as (steps & Rg & _ & _ & U & _).
  exists steps. split; [exact Rg|]. rewrite R, length_map.
  destruct (hops l) as [|h0 hs] eqn:E; [discriminate L|]. cbn in *. lia.
Qed.

Lemma forward_hop_count_witness :
  exists m' w' out,
    forward toy_model_3 0%nat toy_batch = Ok (m', w', out) /\
    py_range (max_hops toy_model_3) = Ok 2%nat /\
    length (f_result out) = 1%nat.
Proof.
  assert (exists m' w' out,
            forward toy_model_3 0%nat toy_batch = Ok (m', w', out) /\
            length (f_result out) = 1%nat) as (m' & w' & out & F & L).
  { do 3 eexists. split; [run | reflexivity]. }
  destruct (forward_hop_count toy_model_3 m' 0%nat w' toy_batch out F)
    as (steps & R & B).
  exists m', w', out. split; [exact F|]. split; [reflexivity | exact L].
Defined.

(** X6: With early stopping switched off the forward pass runs all [max_hops]
    hops. *)
Theorem forward_full_walk_without_early_stop {D : Carriers} {C : Collaborators D}
    (m m' : Model) (w w' : World) (batch : Batch) (out : ForwardOut) (steps : nat) :
  truthy (early_stop m) = false ->
  py_range (max_hops m) = Ok steps ->
  forward m w batch = Ok (m', w', out) ->
  length (f_result out) = steps.
Proof.
  intros T Rg F. apply forward_Ok in F.
  destruct F as (l & h & W & _ & _ & _ & _ & R & _).
  destruct (walk_Ok _ _ _ _ W) as (steps' & Rg' & _ & _ & _ & _ & Full & _).
  rewrite Rg in Rg'. injection Rg' as <-.
  rewrite R, length_map. apply Full.
  apply Forall_forall. intros h' _. unfold stops. rewrite T. reflexivity.
Qed.

Lemma forward_full_walk_without_early_stop_witness :
  exists m' w' out,
    avg_pool_size toy_model_no_stop = 3 /\
    forward toy_model_no_stop 0%nat toy_batch = Ok (m', w', out) /\
    length (f_result out) = 2%nat.
Proof.
  do 3 eexists. split; [reflexivity|].
  assert (forward toy_model_no_stop 0%nat toy_batch = Ok _) as F by run.
  split; [exact F|].
  exact (forward_full_walk_without_early_stop toy_model_no_stop _ 0%nat _
           toy_batch _ 2 eq_refl eq_refl F).
Defined.

(** X7: A walk that ends before the range of [max_hops] is used up was cut by the
    early-stop test: early stopping is on and the last hop reported a mean
    pool size below the stored threshold. *)
Theorem short_walk_was_stopped {D : Carriers} {C : Collaborators D} (m : Model)
    (w : World) (batch : Batch) (l : Locals) (steps : nat) :
  walk m w batch = Ok l ->
  py_range (max_hops m) = Ok steps ->
  (length (hops l) < steps)%nat ->
  exists h,
    last (hops l) = Some h /\
    truthy (early_stop m) = true /\
    h_mean_k h < avg_pool_size m.
Proof.
  intros W Rg Short.
  destruct (walk_Ok _ _ _ _ W) as (steps' & Rg' & _ & St & _ & Lo & Full & _).
  rewrite Rg in Rg'. injection Rg' as <-.
  destruct (last (hops l)) as [h|] eqn:L.
  - exists h. split; [reflexivity|].
    destruct (stops m h) eqn:S.
    + unfold stops in S. apply andb_true_iff in S. destruct S as [T Q].
      split; [exact T | apply Qltb_lt, Q].
    + exfalso. assert (length (hops l) = steps) as E; [|lia].
      apply Full. apply Forall_lookup. intros k h' Hk.
      destruct (stops m h') eqn:S'; [|reflexivity].
      pose proof (St k h' Hk S') as Len.
      rewrite last_lookup, Len in L. cbn in L. congruence.
  - apply last_None in L. rewrite L in *. cbn in *.
    destruct steps; cbn in Lo; lia.
Qed.

Lemma short_walk_was_stopped_witness :
  exists l h,
    walk toy_model_3 0%nat toy_batch = Ok l /\
    length (hops l) = 1%nat /\
    last (hops l) = Some h /\
    truthy (early_stop toy_model_3) = true /\
    h_mean_k h < avg_pool_size toy_model_3.
Proof.
  assert (exists l, walk toy_model_3 0%nat toy_batch = Ok l /\
                    length (hops l) = 1%nat) as (l & W & Len).
  { eexists. split; [run | reflexivity]. }
  destruct (short_walk_was_stopped toy_model_3 0%nat toy_batch l 2 W eq_refl)
    as (h & L & T & Q); [rewrite Len; lia|].
  exists l, h. repeat split; assumption.
Defined.

(** X8: A freshly built model has threshold 0, so its first pass runs all
    [max_hops] hops whenever the reported mean pool sizes are not negative. *)
Theorem first_pass_is_full {D : Carriers} {C : Collaborators D}
    (opt : gmap string pyval) (m : Model) (w : World) (batch : Batch)
    (l : Locals) (steps : nat) :
  init opt = Ok m ->
  py_range (max_hops m) = Ok steps ->
  walk m w batch = Ok l ->
  Forall (fun h => 0 <= h_mean_k h) (hops l) ->
  length (hops l) = steps /\ length (result l) = steps.
Proof.
  intros E Rg W NN.
  pose proof (init_Ok opt m E) as (_ & _ & _ & A0 & _).
  destruct (walk_Ok _ _ _ _ W) as (steps' & Rg' & M & _ & _ & _ & Full & _).
  rewrite Rg in Rg'. injection Rg' as <-.
  assert (length (hops l) = steps) as Len.
  { apply Full. eapply Forall_impl; [exact NN|]. intros h Hh. cbn in Hh.
    unfold stops. rewrite A0. apply andb_false_iff. right.
    apply not_true_is_false. intros Q. apply Qltb_lt in Q.
    apply (Qlt_not_le _ _ Q Hh). }
  split; [exact Len|]. rewrite (mirrors_result l M), length_map. exact Len.
Qed.

Lemma first_pass_is_full_witness :
  exists l,
    init toy_opt = Ok toy_model /\
    walk toy_model 0%nat toy_batch = Ok l /\
    length (hops l) = 2%nat /\ length (result l) = 2%nat.
Proof.
  assert (exists l, walk toy_model 0%nat toy_batch = Ok l /\
                    Forall (fun h => 0 <= h_mean_k h) (hops l)) as (l & W & NN).
  { eexists. split; [run|].
    repeat (apply Forall_cons; split; [vm_compute; discriminate|]). constructor. }
  exists l. split; [reflexivity|]. split; [exact W|].
  exact (first_pass_is_full toy_opt toy_model 0%nat toy_batch l 2 eq_refl eq_refl
           W NN).
Defined.

(** X9: [range(0, self.max_hops)] needs an integer: with any other value of
    [max_hops] the forward pass raises [TypeError] before the first hop. *)
Theorem forward_max_hops_type {D : Carriers} {C : Collaborators D} (m : Model)
    (w : World) (batch : Batch) :
  (forall z, max_hops m <> PInt z) ->
  (forall b, max_hops m <> PBool b) ->
  forward m w batch = Raise TypeError.
Proof.
  intros NI NB. unfold forward, walk.
  destruct (inputlayer w (embedding batch)) as [w1 info].
  destruct (score_nodes w1 (nodes batch) (adj batch)) as [w2 emb].
  destruct (max_hops m) as [|b|z|q|s|vs] eqn:E; cbn; try reflexivity.
  - exfalso. apply (NB b). reflexivity.
  - exfalso. apply (NI z). reflexivity.
Qed.

Lemma forward_max_hops_type_witness :
  init (<["max_hops" := PFloat 2]> toy_opt) = Ok toy_model_float /\
  forward toy_model_float 0%nat toy_batch = Raise TypeError.
Proof.
  split; [vm_compute; reflexivity|].
  apply forward_max_hops_type; intros x H; discriminate H.
Defined.

(** X10: The forward pass raises [ZeroDivisionError] exactly when the model is in
    evaluation mode and the last hop returned an empty list of pools (an empty
    batch). *)
Theorem forward_zero_division_iff {D : Carriers} {C : Collaborators D} (m : Model)
    (w : World) (batch : Batch) :
  forward m w batch = Raise ZeroDivisionError <->
  (training m = false /\
   exists l h, walk m w batch = Ok l /\ last (hops l) = Some h /\
               h_knowledge_pool h = []).
Proof.
  unfold forward. split.
  - intros F. destruct (walk m w batch) as [l|e] eqn:W.
    + cbn in F. destruct (walk_Ok _ _ _ _ W) as (steps & _ & M & _).
      destruct M as [Mr Mp Mraw Mrew Mt Md]. unfold finish in F.
      rewrite Mp, Mraw, Mrew, Mt, Md in F.
      destruct (last (hops l)) as [h|] eqn:L; cbn in F; [|discriminate F].
      destruct (training m) eqn:T; cbn in F; [discriminate F|].
      destruct (h_knowledge_pool h) as [|kp pools] eqn:P; cbn in F;
        [|discriminate F].
      split; [reflexivity|]. exists l, h. repeat split; assumption.
    + cbn in F. injection F as ->. exfalso. unfold walk in W.
      destruct (inputlayer w (embedding batch)) as [w1 info].
      destruct (score_nodes w1 (nodes batch) (adj batch)) as [w2 emb].
      destruct (max_hops m); cbn in W; discriminate W.
  - intros (T & l & h & W & L & P). rewrite W. cbn.
    destruct (walk_Ok _ _ _ _ W) as (steps & _ & M & _).
    destruct M as [Mr Mp Mraw Mrew Mt Md]. unfold finish.
    rewrite Mp, Mraw, Mrew, Mt, Md, L. cbn. rewrite T, P. reflexivity.
Qed.

Example forward_zero_division_on_empty_batch :
  forward (C := toy_empty) (set_training toy_model false) 0%nat toy_batch
  = Raise ZeroDivisionError /\
  exists r, forward (C := toy_empty) toy_model 0%nat toy_batch = Ok r.
Proof. split; [vm_compute; reflexivity | eexists; run]. Qed.

(** X11: The forward pass leaves the model object as it is in training mode, and
    in evaluation mode changes nothing but [avg_pool_size]: it never logs,
    never touches the step outputs and never switches the mode. *)
Theorem forward_model_frame {D : Carriers} {C : Collaborators D} (m m' : Model)
    (w w' : World) (batch : Batch) (out : ForwardOut) :
  forward m w batch = Ok (m', w', out) ->
  m' = (if training m then m else set_avg_pool_size m (avg_pool_size m')) /\
  f_pool_size out = total_len (f_knowledge_pool out).
Proof.
  intros F. apply forward_Ok in F.
  destruct F as (l & h & _ & _ & _ & -> & _ & _ & _ & Ps & _ & _ & Pk & _).
  rewrite Ps, Pk. unfold after_forward.
  destruct (training m); split; reflexivity.
Qed.

Lemma forward_model_frame_witness :
  exists m' w' out,
    forward (set_training toy_model_3 false) 0%nat toy_batch = Ok (m', w', out) /\
    m' = set_avg_pool_size (set_training toy_model_3 false) (avg_pool_size m') /\
    forward toy_model_3 0%nat toy_batch = Ok (toy_model_3, w', out).
Proof.
  assert (exists m' w' out,
            forward (set_training toy_model_3 false) 0%nat toy_batch
            = Ok (m', w', out) /\
            forward toy_model_3 0%nat toy_batch = Ok (toy_model_3, w', out))
    as (m' & w' & out & F & F').
  { do 3 eexists. split; [run | vm_compute; reflexivity]. }
  exists m', w', out. split; [exact F|]. split; [|exact F'].
  exact (proj1 (forward_model_frame _ _ _ _ _ _ F)).
Defined.

(** X12: The rewards are never fed back into the walk: with any other reward
    function the forward pass returns under the same conditions, with the same
    knowledge pools, raw scores, pool size and number of hops, and leaves the
    same model and hidden state behind. *)
Theorem forward_walk_ignores_reward {D : Carriers} (C : Collaborators D) rf
    (m m1 : Model) (w w1 : World) (batch : Batch) (out1 : ForwardOut) :
  forward (C := with_reward C rf) m w batch = Ok (m1, w1, out1) ->
  exists out2,
    forward (C := C) m w batch = Ok (m1, w1, out2) /\
    f_knowledge_pool out2 = f_knowledge_pool out1 /\
    f_raw_kp out2 = f_raw_kp out1 /\
    f_pool_size out2 = f_pool_size out1 /\
    length (f_result out2) = length (f_result out1).
Proof.
  unfold forward, walk.
  cbn [with_reward inputlayer score_nodes zeros].
  destruct (inputlayer w (embedding batch)) as [w1' info].
  destruct (score_nodes w1' (nodes batch) (adj batch)) as [w2 emb].
  destruct (py_range (max_hops m)) as [steps|err]; [|discriminate].
  cbn [mbind res_bind].
  set (l0 := {| world := w2; agent_state := info; current_node := root batch;
                current_activation := zeros (nodes batch);
                current_score := zeros (nodes batch); result := [];
                knowledge_pool := None; raw_kp := None; current_reward := None;
                topk_acc := None; reward_detail := None; hops := [] |}).
  assert (same_but_reward l0 l0) as R0 by (split; reflexivity).
  pose proof (hop_loop_with_reward C rf m batch emb info steps l0 l0 R0)
    as [Ew _ _ _ _ El Ep Er Erw Et Ed].
  set (l1 := hop_loop (C := with_reward C rf) m batch emb info steps l0) in *.
  set (l2 := hop_loop (C := C) m batch emb info steps l0) in *.
  assert (length (result l1) = length (result l2)) as Len.
  { apply (f_equal length) in El. unfold hop_losses in El.
    rewrite !length_map in El. exact El. }
  unfold finish. rewrite Ep, Er, Ew.
  destruct (knowledge_pool l2) as [pools|]; [|discriminate].
  destruct (current_reward l1) as [r1|], (current_reward l2) as [r2|];
    try discriminate Erw; [|discriminate].
  cbn [read mbind res_bind].
  destruct (if negb (training m) then _ else _) as [mf|err]; [|discriminate].
  cbn [mbind res_bind].
  destruct (topk_acc l1) as [t1|], (topk_acc l2) as [t2|];
    try discriminate Et; [|discriminate].
  destruct (reward_detail l1) as [d1|], (reward_detail l2) as [d2|];
    try discriminate Ed; [|discriminate].
  destruct (raw_kp l2) as [raw|]; [|discriminate].
  cbn [read mbind res_bind]. intros E. injection E as <- <- <-.
  eexists. split; [reflexivity|]. cbn. repeat split. symmetry. exact Len.
Qed.

Lemma forward_walk_ignores_reward_witness :
  let rf : pyval -> pyval -> pyval -> pyval -> list nat -> list nat -> list nat ->
           list (list nat) -> list nat -> list Q * list nat * list nat :=
    fun _ _ _ _ _ _ _ _ _ => ([100], [], []) in
  exists m1 w1 out1 out2,
    forward (C := with_reward toy rf) toy_model 0%nat toy_batch = Ok (m1, w1, out1) /\
    f_reward out1 == 100 /\
    forward (C := toy) toy_model 0%nat toy_batch = Ok (m1, w1, out2) /\
    f_reward out2 == 4 /\
    f_knowledge_pool out2 = f_knowledge_pool out1.
Proof.
  intros rf.
  assert (exists m1 w1 out1,
            forward (C := with_reward toy rf) toy_model 0%nat toy_batch
            = Ok (m1, w1, out1) /\ f_reward out1 == 100)
    as (m1 & w1 & out1 & F1 & R1).
  { do 3 eexists. split; [run | vm_compute; reflexivity]. }
  destruct (forward_walk_ignores_reward toy rf toy_model m1 0%nat w1 toy_batch
              out1 F1) as (out2 & F2 & Kp & _).
  exists m1, w1, out1, out2. split; [exact F1|]. split; [exact R1|].
  split; [exact F2|]. split; [|exact Kp].
  assert (forward (C := toy) toy_model 0%nat toy_batch = Ok (m1, w1, out2) ->
          f_reward out2 == 4) as G.
  { intros F. vm_compute in F. injection F as _ _ <-. vm_compute. reflexivity. }
  exact (G F2).
Defined.

(** ** Steps and epoch ends, continued *)

Lemma forward_model {D : Carriers} {C : Collaborators D} (m m' : Model)
    (w w' : World) (batch : Batch) (out : ForwardOut) :
  forward m w batch = Ok (m', w', out) ->
  m' = after_forward m (f_knowledge_pool out).
Proof.
  intros F. apply forward_Ok in F.
  destruct F as (l & h & _ & _ & _ & -> & _ & _ & _ & _ & _ & _ & Pk & _).
  rewrite Pk. reflexivity.
Qed.

Lemma after_forward_frame {D : Carriers} (m : Model) (pools : list (list Item)) :
  training (after_forward m pools) = training m /\
  samples (after_forward m pools) = samples m /\
  training_step_outputs (after_forward m pools) = training_step_outputs m /\
  validation_step_outputs (after_forward m pools) = validation_step_outputs m /\
  logged (after_forward m pools) = logged m.
Proof. unfold after_forward. destruct (training m) eqn:T; cbn; auto. Qed.

(** X13: A training step that returns has appended exactly one entry to
    [training_step_outputs], carrying the pool size and the reward of its
    forward pass and the number of per-hop losses; it has logged the returned
    loss as ["Train Loss"]; it has left [validation_step_outputs] and the mode
    alone. *)
Theorem training_step_records {D : Carriers} {C : Collaborators D} (m m' : Model)
    (w w' : World) (batch : Batch) (idx : Z) (loss : Q) :
  training_step m w batch idx = Ok (m', w', loss) ->
  exists mf out o,
    forward m w batch = Ok (mf, w', out) /\
    training_step_outputs m' = training_step_outputs m ++ [o] /\
    so_pool_size o = f_pool_size out /\
    so_reward o = f_reward out /\
    so_topk_acc o = f_topk_acc out /\
    so_num_steps o = length (fst (loss_function (f_result out))) /\
    validation_step_outputs m' = validation_step_outputs m /\
    logged m' = logged m ++ [("Train Loss"%string, loss)] /\
    training m' = training m /\
    samples m' = samples m.
Proof.
  unfold training_step. intros E. apply bind_Ok in E.
  destruct E as ([[mf w1] out] & F & E).
  pose proof (forward_model _ _ _ _ _ _ F) as Hm.
  destruct (after_forward_frame m (f_knowledge_pool out)) as (T & S & To & Vo & Lg).
  rewrite <- Hm in T, S, To, Vo, Lg.
  destruct (loss_function (f_result out)) as [ls d] eqn:LF.
  apply bind_Ok in E. destruct E as (q & Dv & E).
  injection E as <- <- <-. eexists mf, out, _.
  split; [exact F|]. rewrite LF. cbn. rewrite To, Vo, Lg, T, S.
  repeat split; reflexivity.
Qed.

Lemma training_step_records_witness :
  exists m' w' loss,
    training_step toy_model 0%nat toy_batch 0 = Ok (m', w', loss) /\
    length (training_step_outputs m') = 1%nat /\
    logged m' = [("Train Loss"%string, loss)].
Proof.
  assert (exists m' w' loss,
            training_step toy_model 0%nat toy_batch 0 = Ok (m', w', loss))
    as (m' & w' & loss & S).
  { do 3 eexists. run. }
  destruct (training_step_records toy_model m' 0%nat w' toy_batch 0 loss S)
    as (mf & out & o & _ & To & _ & _ & _ & _ & _ & Lg & _).
  exists m', w', loss. split; [exact S|]. rewrite To. split; [reflexivity | exact Lg].
Defined.

(** X14: A validation step that returns has appended exactly one entry, keyed by
    the index of the data loader, to [validation_step_outputs]; it has logged
    the loss as ["Val Loss"] and left [training_step_outputs] alone. *)
Theorem validation_step_records {D : Carriers} {C : Collaborators D} (m m' : Model)
    (w w' : World) (batch : Batch) (idx didx : Z) (loss : Q) :
  validation_step m w batch idx didx = Ok (m', w', loss) ->
  exists mf out o,
    forward m w batch = Ok (mf, w', out) /\
    validation_step_outputs m' = validation_step_outputs m ++ [(didx, o)] /\
    so_pool_size o = f_pool_size out /\
    so_reward o = f_reward out /\
    so_topk_acc o = f_topk_acc out /\
    so_num_steps o = length (fst (loss_function (f_result out))) /\
    training_step_outputs m' = training_step_outputs m /\
    logged m' = logged m ++ [("Val Loss"%string, loss)] /\
    training m' = training m /\
    samples m' = samples m.
Proof.
  unfold validation_step. intros E. apply bind_Ok in E.
  destruct E as ([[mf w1] out] & F & E).
  pose proof (forward_model _ _ _ _ _ _ F) as Hm.
  destruct (after_forward_frame m (f_knowledge_pool out)) as (T & S & To & Vo & Lg).
  rewrite <- Hm in T, S, To, Vo, Lg.
  destruct (loss_function (f_result out)) as [ls d] eqn:LF.
  apply bind_Ok in E. destruct E as (q & Dv & E).
  injection E as <- <- <-. eexists mf, out, _.
  split; [exact F|]. rewrite LF. cbn. rewrite To, Vo, Lg, T, S.
  repeat split; reflexivity.
Qed.

Lemma validation_step_records_witness :
  exists m' w' loss o,
    validation_step toy_model_val 0%nat toy_batch 0 1 = Ok (m', w', loss) /\
    validation_step_outputs m' =
      [(0%Z, toy_output); (0%Z, toy_output); (1%Z, toy_output); (1%Z, o)] /\
    training_step_outputs m' = [].
Proof.
  assert (exists m' w' loss,
            validation_step toy_model_val 0%nat toy_batch 0 1 = Ok (m', w', loss))
    as (m' & w' & loss & S).
  { do 3 eexists. run. }
  destruct (validation_step_records toy_model_val m' 0%nat w' toy_batch 0 1 loss S)
    as (mf & out & o & _ & Vo & _ & _ & _ & _ & To & _).
  exists m', w', loss, o. split; [exact S|]. split; [exact Vo | exact To].
Defined.

Lemma accumulate_eq {D : Carriers} (step_outputs : list StepOutput) :
  accumulate step_outputs =
  (sum_list_with so_pool_size step_outputs,
   sum_list_with so_num_steps step_outputs,
   tsum (map so_reward step_outputs),
   length step_outputs).
Proof.
  unfold accumulate, tsum.
  assert (forall outs a b c d,
            fold_left
              (fun '(avg_pool_size, avg_steps, reward, cnt) output =>
                 ((avg_pool_size + so_pool_size output)%nat,
                  (avg_steps + so_num_steps output)%nat,
                  reward + so_reward output, S cnt)) outs (a, b, c, d)
            = ((a + sum_list_with so_pool_size outs)%nat,
               (b + sum_list_with so_num_steps outs)%nat,
               fold_left Qplus (map so_reward outs) c,
               (d + length outs)%nat)) as G.
  { induction outs as [|o outs IH]; intros a b c d; cbn.
    - rewrite !Nat.add_0_r. reflexivity.
    - rewrite IH, <- !Nat.add_assoc, Nat.add_succ_comm. reflexivity. }
  apply G.
Qed.

(** X15: [log_outputs] raises [ZeroDivisionError] exactly when it is given no step
    outputs together with a positive sample count (line 160 divides the step
    total by the number of outputs); in every other case it returns. *)
Theorem log_outputs_zero_division_iff {D : Carriers} (m : Model)
    (step_outputs : list StepOutput) (split : string) (num : Q) :
  (log_outputs m step_outputs split num = Raise ZeroDivisionError <->
   step_outputs = [] /\ 0 < num) /\
  ((exists m', log_outputs m step_outputs split num = Ok m') <->
   ~ (step_outputs = [] /\ 0 < num)).
Proof.
  unfold log_outputs. rewrite accumulate_eq.
  destruct (Qltb 0 num) eqn:P.
  - apply Qltb_lt in P. destruct step_outputs as [|o outs]; cbn.
    + split; split.
      * intros _. split; [reflexivity | exact P].
      * reflexivity.
      * intros [m' E]. discriminate E.
      * intros N. exfalso. apply N. split; [reflexivity | exact P].
    + split; split.
      * intros E. discriminate E.
      * intros [E _]. discriminate E.
      * intros _ [E _]. discriminate E.
      * intros _. eexists. reflexivity.
  - assert (~ 0 < num) as N.
    { intros Q. apply Qltb_lt in Q. congruence. }
    cbn. split; split.
    + intros E. discriminate E.
    + intros [_ Q]. contradiction.
    + intros _ [_ Q]. contradiction.
    + intros _. eexists. reflexivity.
Qed.

(** X16: With a positive sample count and at least one step output,
    [log_outputs] returns and its log calls begin with three metrics, in this
    order: the summed rewards and the summed pool sizes, both divided by the
    sample count [num], and the summed hop counts divided by the number of
    outputs (the entries of the numpy accumulators follow them); the step
    outputs themselves stay as they are. *)
Theorem log_outputs_metrics {D : Carriers} (m : Model)
    (step_outputs : list StepOutput) (split : string) (num : Q) :
  0 < num ->
  step_outputs <> [] ->
  exists m',
    log_outputs m step_outputs split num = Ok m' /\
    (logged m ++
     [(split +:+ " reward", tsum (map so_reward step_outputs) / num);
      (split +:+ " avg_pool_size",
       inject_Z (Z.of_nat (sum_list_with so_pool_size step_outputs)) / num);
      (split +:+ " avg_steps",
       inject_Z (Z.of_nat (sum_list_with so_num_steps step_outputs)) /
       inject_Z (Z.of_nat (length step_outputs)))])
    `prefix_of` logged m' /\
    training_step_outputs m' = training_step_outputs m /\
    validation_step_outputs m' = validation_step_outputs m /\
    samples m' = samples m /\
    training m' = training m.
Proof.
  intros P N. unfold log_outputs. rewrite accumulate_eq.
  apply Qltb_lt in P. rewrite P.
  destruct step_outputs as [|o outs]; [contradiction|].
  cbn [length py_div mbind res_bind]. eexists. split; [reflexivity|].
  destruct (training m) eqn:T; cbn; rewrite ?T, <- !app_assoc;
    repeat split; reflexivity.
Qed.

Lemma log_outputs_metrics_witness :
  exists m' rest,
    log_outputs toy_model_3 [toy_output; toy_output] "Train" 4 = Ok m' /\
    logged m' = logged toy_model_3 ++ rest /\
    Forall2 (fun x y => fst x = fst y /\ snd x == snd y) (take 3 rest)
      [("Train reward"%string, 2); ("Train avg_pool_size"%string, 2);
       ("Train avg_steps"%string, 2)].
Proof.
  destruct (log_outputs_metrics toy_model_3 [toy_output; toy_output] "Train" 4)
    as (m' & L & [more Lg] & _); [reflexivity | discriminate |].
  rewrite <- app_assoc in Lg.
  eexists m', _. split; [exact L|]. split; [exact Lg|].
  cbn [app take].
  repeat (constructor; [split; [reflexivity | vm_compute; reflexivity]|]).
  constructor.
Defined.

(** When [log_outputs] returns, the model keeps its mode, its sample counts
    and both lists of step outputs, and nothing already logged is lost,
    whatever the sample count. *)
Lemma log_outputs_frame {D : Carriers} (m m' : Model)
    (step_outputs : list StepOutput) (split : string) (num : Q) :
  log_outputs m step_outputs split num = Ok m' ->
  training m' = training m /\
  samples m' = samples m /\
  training_step_outputs m' = training_step_outputs m /\
  validation_step_outputs m' = validation_step_outputs m /\
  logged m `prefix_of` logged m' /\
  (training m = false -> avg_pool_size m' = avg_pool_size m).
Proof.
  unfold log_outputs.
  destruct (accumulate step_outputs) as [[[ps ss] rs] cnt].
  intros E. apply bind_Ok in E. destruct E as ([[a b] c] & _ & E).
  injection E as <-.
  destruct (training m) eqn:T; cbn; rewrite ?T, <- ?app_assoc;
    repeat split; try reflexivity; try discriminate;
    apply prefix_app_r; reflexivity.
Qed.

(** X17: When the end of a training epoch returns, [training_step_outputs]
    is empty again, [validation_step_outputs] and the mode are as before,
    nothing already logged is lost, and the stored threshold is, in training
    mode, the sum of the pool sizes of the epoch's steps divided by
    [samples[0]] (the bare sum when that count is not positive). *)
Theorem train_epoch_end_effect {D : Carriers} {C : Collaborators D} (m m' : Model) :
  on_train_epoch_end m = Ok m' ->
  exists first num,
    py_index0 (samples m) = Ok first /\
    py_num first = Ok num /\
    training_step_outputs m' = [] /\
    validation_step_outputs m' = validation_step_outputs m /\
    logged m `prefix_of` logged m' /\
    training m' = training m /\
    avg_pool_size m' =
      (if training m then pool_mean (training_step_outputs m) num
       else avg_pool_size m).
Proof.
  unfold on_train_epoch_end. intros E.
  apply bind_Ok in E. destruct E as (first & Hf & E).
  apply bind_Ok in E. destruct E as (num & Hn & E).
  apply bind_Ok in E. destruct E as (m1 & L & E).
  injection E as <-. exists first, num.
  pose proof (log_outputs_frame _ _ _ _ _ L) as (T & _ & _ & Vo & Lg & _).
  pose proof (log_outputs_Ok _ _ _ _ _ L) as (A & _).
  cbn. repeat split; assumption.
Qed.

Lemma train_epoch_end_effect_witness :
  exists m1 w1 loss m2,
    training_step toy_model 0%nat toy_batch 0 = Ok (m1, w1, loss) /\
    training_step_outputs m1 <> [] /\
    on_train_epoch_end m1 = Ok m2 /\
    training_step_outputs m2 = [] /\
    avg_pool_size m2 == 4.
Proof.
  assert (exists m1 w1 loss m2,
            training_step toy_model 0%nat toy_batch 0 = Ok (m1, w1, loss) /\
            on_train_epoch_end m1 = Ok m2 /\
            training_step_outputs m1 <> [] /\
            training m1 = true /\
            py_index0 (samples m1) = Ok (PInt 1) /\
            pool_mean (training_step_outputs m1) 1 == 4)
    as (m1 & w1 & loss & m2 & S & E & Ne & T & Hf' & Pm).
  { do 4 eexists. split; [run|]. split; [run|].
    split; [discriminate|]. split; [reflexivity|].
    split; [reflexivity | vm_compute; reflexivity]. }
  destruct (train_epoch_end_effect m1 m2 E)
    as (first & num & Hf & Hn & To & _ & _ & _ & Av).
  exists m1, w1, loss, m2. split; [exact S|]. split; [exact Ne|].
  split; [exact E|]. split; [exact To|].
  assert (num = 1) as ->.
  { rewrite Hf' in Hf. injection Hf as <-. cbn in Hn. injection Hn as <-.
    reflexivity. }
  rewrite Av, T. exact Pm.
Defined.

(** X18: An epoch without a single training step cannot be closed: with a positive
    count in [samples[0]] the end of the epoch raises [ZeroDivisionError]. *)
Theorem train_epoch_end_without_steps {D : Carriers} {C : Collaborators D}
    (m : Model) (first : pyval) (num : Q) :
  training_step_outputs m = [] ->
  py_index0 (samples m) = Ok first ->
  py_num first = Ok num ->
  0 < num ->
  on_train_epoch_end m = Raise ZeroDivisionError.
Proof.
  intros To Hf Hn P. unfold on_train_epoch_end.
  rewrite Hf. cbn [mbind res_bind]. rewrite Hn. cbn [mbind res_bind].
  rewrite To.
  assert (log_outputs m [] "Train" num = Raise ZeroDivisionError) as ->.
  { apply (log_outputs_zero_division_iff m [] "Train" num).
    split; [reflexivity | exact P]. }
  reflexivity.
Qed.

Lemma train_epoch_end_without_steps_witness :
  init toy_opt = Ok toy_model /\
  on_train_epoch_end toy_model = Raise ZeroDivisionError.
Proof.
  split; [reflexivity|].
  apply (train_epoch_end_without_steps toy_model (PInt 1) 1); reflexivity.
Defined.

(** ** A training epoch *)

Lemma training_run_keeps {D : Carriers} {C : Collaborators D} (m : Model) (w : World)
    (n : nat) (m1 : Model) (w1 : World) :
  training_run m w n m1 w1 ->
  training m1 = training m /\
  samples m1 = samples m /\
  validation_step_outputs m1 = validation_step_outputs m /\
  length (training_step_outputs m1) = (length (training_step_outputs m) + n)%nat /\
  length (logged m1) = (length (logged m) + n)%nat /\
  (training m = true -> avg_pool_size m1 = avg_pool_size m).
Proof.
  induction 1 as [|n m1 w1 batch idx m2 w2 loss _ IH S].
  - repeat split; try lia; reflexivity.
  - destruct IH as (T & Sm & Vo & To & Lg & A).
    pose proof (training_step_records _ _ _ _ _ _ _ S)
      as (mf & out & o & _ & To' & _ & _ & _ & _ & Vo' & Lg' & T' & Sm').
    rewrite To', Lg', !length_app, T', Sm', Vo'. cbn.
    repeat split; try congruence; try lia.
    intros Tm. rewrite <- (A Tm).
    apply training_step_Ok in S. destruct S as (mf' & out' & F & _ & Av & _).
    apply forward_frame in F. destruct F as (_ & _ & Av').
    rewrite T, Tm in Av'. congruence.
Qed.

(** X19: Over a training epoch (one or more training steps in training mode, then
    the end of the epoch, with a number in [samples[0]]) the early-stop
    threshold stays fixed while the steps run; the end of the epoch returns,
    replaces the threshold by the pool sizes of the epoch's steps averaged over
    [samples[0]], and empties [training_step_outputs]. *)
Theorem training_epoch {D : Carriers} {C : Collaborators D} (m : Model) (w : World)
    (n : nat) (m1 : Model) (w1 : World) (first : pyval) (num : Q) :
  training m = true ->
  training_run m w (S n) m1 w1 ->
  py_index0 (samples m) = Ok first ->
  py_num first = Ok num ->
  exists m2,
    on_train_epoch_end m1 = Ok m2 /\
    avg_pool_size m1 = avg_pool_size m /\
    length (training_step_outputs m1) =
      (length (training_step_outputs m) + S n)%nat /\
    avg_pool_size m2 = pool_mean (training_step_outputs m1) num /\
    training_step_outputs m2 = [].
Proof.
  intros T R Hf Hn.
  pose proof (training_run_keeps _ _ _ _ _ R) as (T1 & Sm & _ & To & _ & A).
  assert (exists m', log_outputs m1 (training_step_outputs m1) "Train" num = Ok m')
    as [m' L].
  { apply (log_outputs_zero_division_iff m1 (training_step_outputs m1) "Train" num).
    intros [E _]. rewrite E in To. cbn in To. lia. }
  assert (on_train_epoch_end m1 = Ok (set_training_step_outputs m' [])) as E.
  { unfold on_train_epoch_end. rewrite Sm, Hf. cbn [mbind res_bind].
    rewrite Hn. cbn [mbind res_bind]. rewrite L. reflexivity. }
  exists (set_training_step_outputs m' []). split; [exact E|].
  split; [exact (A T)|]. split; [exact To|]. split; [|reflexivity].
  pose proof (log_outputs_Ok _ _ _ _ _ L) as (Av & _).
  cbn. rewrite Av, T1, T. reflexivity.
Qed.

Lemma training_epoch_witness :
  exists m1 w1 m2,
    training_run toy_model 0%nat 2 m1 w1 /\
    on_train_epoch_end m1 = Ok m2 /\
    avg_pool_size m1 = 0 /\
    length (training_step_outputs m1) = 2%nat /\
    avg_pool_size m2 == 8 /\
    training_step_outputs m2 = [].
Proof.
  assert (exists ma wa la mb wb lb,
            training_step toy_model 0%nat toy_batch 0 = Ok (ma, wa, la) /\
            training_step ma wa toy_batch 1 = Ok (mb, wb, lb) /\
            pool_mean (training_step_outputs mb) 1 == 8)
    as (ma & wa & la & mb & wb & lb & Sa & Sb & Pm).
  { do 6 eexists. split; [run|]. split; [run|]. vm_compute. reflexivity. }
  assert (training_run toy_model 0%nat 2 mb wb) as R.
  { eapply run_step; [eapply run_step; [apply run_start | exact Sa] | exact Sb]. }
  destruct (training_epoch toy_model 0%nat 1 mb wb (PInt 1) 1 eq_refl R eq_refl
              eq_refl) as (m2 & E & A & To & Av & Cl).
  exists mb, wb, m2. split; [exact R|]. split; [exact E|]. split; [exact A|].
  split; [exact To|]. split; [rewrite Av; exact Pm | exact Cl].
Defined.

(** ** The end of a validation epoch *)

Lemma count_idx_filter (k : Z) (ids : list Z) :
  count_idx k ids = length (filter (fun i => i = k) ids).
Proof.
  unfold count_idx.
  assert (forall a, fold_left Nat.add
                      (map (fun i => if (i =? k)%Z then 1%nat else 0%nat) ids) a
                    = (a + length (filter (fun i => i = k) ids))%nat) as G.
  { induction ids as [|i ids IH]; intros a; [cbn; lia|].
    cbn [map fold_left]. rewrite IH, filter_cons.
    destruct (Z.eqb_spec i k) as [E|N]; destruct (decide (i = k)); cbn; lia. }
  apply G.
Qed.

Lemma take_then_more {A : Type} (l : list A) :
  forall a n, take a l ++ take n (drop a l) = take (a + n) l.
Proof.
  induction l as [|x l IH]; intros a n.
  - rewrite drop_nil, !take_nil. reflexivity.
  - destruct a as [|a]; cbn; [reflexivity|]. f_equal. apply IH.
Qed.

Lemma py_slice_from_start {A : Type} (a b : nat) (l : list A) :
  (a <= b)%nat -> py_slice 0 a l ++ py_slice a b l = take b l.
Proof.
  intros Le. unfold py_slice. rewrite Nat.sub_0_r, drop_0, take_then_more.
  f_equal. lia.
Qed.

(** X20: The slices that [on_validation_epoch_end] hands to [log_outputs] lie one
    after the other and overlap nowhere: joined, they are the first outputs of
    the list, as many as there are outputs with a data-loader index among the
    expected ones. *)
Theorem validation_slices_are_consecutive {A : Type} (outs : list (Z * A)) :
  let ids := map fst outs in
  let idx2 := running_totals [count_idx 0 ids; count_idx 1 ids] in
  let idx4 := running_totals [count_idx 0 ids; count_idx 1 ids;
                              count_idx 2 ids; count_idx 3 ids] in
  py_slice 0 (nth 0 idx2 0%nat) outs ++
  py_slice (nth 0 idx2 0%nat) (nth 1 idx2 0%nat) outs
  = take (count_idx 0 ids + count_idx 1 ids) outs /\
  py_slice 0 (nth 0 idx4 0%nat) outs ++
  py_slice (nth 0 idx4 0%nat) (nth 1 idx4 0%nat) outs ++
  py_slice (nth 1 idx4 0%nat) (nth 2 idx4 0%nat) outs ++
  py_slice (nth 2 idx4 0%nat) (nth 3 idx4 0%nat) outs
  = take (count_idx 0 ids + count_idx 1 ids + count_idx 2 ids + count_idx 3 ids)
         outs.
Proof.
  intros ids idx2 idx4. subst idx2 idx4. cbn -[py_slice count_idx].
  set (c0 := count_idx 0 ids). set (c1 := count_idx 1 ids).
  set (c2 := count_idx 2 ids). set (c3 := count_idx 3 ids).
  split.
  - apply py_slice_from_start. lia.
  - rewrite !app_assoc.
    rewrite (py_slice_from_start c0 (c0 + c1)) by lia.
    rewrite <- (py_slice_from_start (c0 + c1) (c0 + c1 + c2 + c3)) by lia.
    rewrite <- app_assoc. f_equal.
    + unfold py_slice. rewrite Nat.sub_0_r, drop_0. reflexivity.
    + unfold py_slice.
      replace (c0 + c1 + c2 + c3 - (c0 + c1))%nat with (c2 + (c3 + c2 - c2))%nat
        by lia.
      replace (c0 + c1 + c2 - (c0 + c1))%nat with c2 by lia.
      replace (c0 + c1 + c2 + c3 - (c0 + c1 + c2))%nat with (c3 + c2 - c2)%nat
        by lia.
      remember (drop (c0 + c1) outs) as rest.
      replace (drop (c0 + c1 + c2) outs) with (drop c2 rest)
        by (subst rest; rewrite drop_drop; reflexivity).
      pose proof (py_slice_from_start c2 (c3 + c2) rest) as P.
      unfold py_slice in P. rewrite Nat.sub_0_r, drop_0 in P.
      rewrite P by lia. f_equal. lia.
Qed.

Lemma filter_none {A : Type} (P : A -> Prop) `{forall x, Decision (P x)}
    (l : list A) :
  Forall (fun x => ~ P x) l -> filter P l = [].
Proof.
  induction 1 as [|x l N _ IH]; [reflexivity|].
  rewrite filter_cons. destruct (decide (P x)); [contradiction | exact IH].
Qed.

Lemma filter_all {A : Type} (P : A -> Prop) `{forall x, Decision (P x)}
    (l : list A) :
  Forall P l -> filter P l = l.
Proof.
  induction 1 as [|x l Px _ IH]; [reflexivity|].
  rewrite filter_cons. destruct (decide (P x)); [|contradiction].
  rewrite IH. reflexivity.
Qed.

(** A list sorted by key is its part below [k], then its part at [k], then its
    part above [k]. *)
Lemma sorted_three_parts {A : Type} (k : Z) (outs : list (Z * A)) :
  StronglySorted Z.le (map fst outs) ->
  outs = filter (fun o => (fst o < k)%Z) outs ++
         filter (fun o => fst o = k) outs ++
         filter (fun o => (k < fst o)%Z) outs.
Proof.
  induction outs as [|x l IH]; intros S; [reflexivity|].
  cbn [map] in S. apply StronglySorted_inv in S. destruct S as [S F].
  specialize (IH S).
  assert (Forall (fun o => (fst x <= fst o)%Z) l) as Fl.
  { apply Forall_forall. intros o Ho. rewrite Forall_forall in F.
    apply F. apply list_elem_of_In, in_map, list_elem_of_In, Ho. }
  rewrite !filter_cons.
  destruct (Z.lt_trichotomy (fst x) k) as [Lt|[Eq|Gt]].
  - destruct (decide (fst x < k)%Z); [|lia].
    destruct (decide (fst x = k)); [lia|].
    destruct (decide (k < fst x)%Z); [lia|].
    cbn. f_equal. exact IH.
  - destruct (decide (fst x < k)%Z); [lia|].
    destruct (decide (fst x = k)); [|lia].
    destruct (decide (k < fst x)%Z); [lia|].
    rewrite (filter_none (fun o => (fst o < k)%Z) l) in IH |- *
      by (eapply Forall_impl; [exact Fl|]; cbn; intros; lia).
    cbn in IH |- *. f_equal. exact IH.
  - destruct (decide (fst x < k)%Z); [lia|].
    destruct (decide (fst x = k)); [lia|].
    destruct (decide (k < fst x)%Z); [|lia].
    rewrite (filter_none (fun o => (fst o < k)%Z) l) in IH |- *
      by (eapply Forall_impl; [exact Fl|]; cbn; intros; lia).
    rewrite (filter_none (fun o => fst o = k) l) in IH |- *
      by (eapply Forall_impl; [exact Fl|]; cbn; intros; lia).
    cbn in IH |- *. f_equal. exact IH.
Qed.

Lemma count_idx_keys {A : Type} (k : Z) (outs : list (Z * A)) :
  count_idx k (map fst outs) = length (filter (fun o => fst o = k) outs).
Proof.
  rewrite count_idx_filter.
  induction outs as [|x l IH]; [reflexivity|].
  cbn [map]. rewrite !filter_cons.
  destruct (decide (fst x = k)); cbn; rewrite IH; reflexivity.
Qed.

Lemma below_succ {A : Type} (k : Z) (outs : list (Z * A)) :
  length (filter (fun o => (fst o < k + 1)%Z) outs) =
  (length (filter (fun o => (fst o < k)%Z) outs) + count_idx k (map fst outs))%nat.
Proof.
  rewrite count_idx_keys.
  induction outs as [|x l IH]; [reflexivity|].
  rewrite !filter_cons.
  destruct (decide (fst x < k + 1)%Z), (decide (fst x < k)%Z),
    (decide (fst x = k)); cbn; lia.
Qed.

(** The slice for loader [k] of a list sorted by loader index. *)
Lemma slice_of_loader {A : Type} (k : Z) (outs : list (Z * A)) :
  Sorted Z.le (map fst outs) ->
  let below := length (filter (fun o => (fst o < k)%Z) outs) in
  py_slice below (below + count_idx k (map fst outs)) outs =
  filter (fun o => fst o = k) outs.
Proof.
  intros S below. apply Sorted_StronglySorted in S; [|intros x y z; lia].
  unfold py_slice. replace (below + _ - below)%nat
    with (count_idx k (map fst outs)) by lia.
  rewrite count_idx_keys. subst below.
  pose proof (sorted_three_parts k outs S) as E.
  set (lo := filter (fun o => (fst o < k)%Z) outs) in *.
  set (at_k := filter (fun o => fst o = k) outs) in *.
  set (hi := filter (fun o => (k < fst o)%Z) outs) in *.
  rewrite E, drop_app_length, take_app_length. reflexivity.
Qed.

(** X21: When the validation outputs come grouped by data loader, in the order of
    the loaders' indices, each slice that [on_validation_epoch_end] hands to
    [log_outputs] holds exactly the outputs of one loader: the [k]-th slice is
    the list of outputs with index [k]. *)
Theorem validation_slices_by_loader {A : Type} (outs : list (Z * A)) :
  let ids := map fst outs in
  let idx2 := running_totals [count_idx 0 ids; count_idx 1 ids] in
  let idx4 := running_totals [count_idx 0 ids; count_idx 1 ids;
                              count_idx 2 ids; count_idx 3 ids] in
  Sorted Z.le ids ->
  Forall (fun i => (0 <= i)%Z) ids ->
  (py_slice 0 (nth 0 idx2 0%nat) outs = filter (fun o => fst o = 0%Z) outs /\
   py_slice (nth 0 idx2 0%nat) (nth 1 idx2 0%nat) outs
   = filter (fun o => fst o = 1%Z) outs) /\
  (py_slice 0 (nth 0 idx4 0%nat) outs = filter (fun o => fst o = 0%Z) outs /\
   py_slice (nth 0 idx4 0%nat) (nth 1 idx4 0%nat) outs
   = filter (fun o => fst o = 1%Z) outs /\
   py_slice (nth 1 idx4 0%nat) (nth 2 idx4 0%nat) outs
   = filter (fun o => fst o = 2%Z) outs /\
   py_slice (nth 2 idx4 0%nat) (nth 3 idx4 0%nat) outs
   = filter (fun o => fst o = 3%Z) outs).
Proof.
  intros ids idx2 idx4 S NN. subst idx2 idx4. cbn -[py_slice count_idx].
  assert (length (filter (fun o => (fst o < 0)%Z) outs) = 0%nat) as B0.
  { rewrite filter_none; [reflexivity|].
    apply Forall_forall. intros o Ho. rewrite Forall_forall in NN.
    assert (0 <= fst o)%Z; [|lia].
    apply NN. subst ids. apply list_elem_of_In, in_map, list_elem_of_In, Ho. }
  pose proof (below_succ 0 outs) as B1. change (0 + 1)%Z with 1%Z in B1.
  rewrite B0, Nat.add_0_l in B1.
  pose proof (below_succ 1 outs) as B2. change (1 + 1)%Z with 2%Z in B2.
  rewrite B1 in B2.
  pose proof (below_succ 2 outs) as B3. change (2 + 1)%Z with 3%Z in B3.
  rewrite B2 in B3.
  pose proof (slice_of_loader 0 outs S) as S0. cbn zeta in S0. rewrite B0 in S0.
  pose proof (slice_of_loader 1 outs S) as S1. cbn zeta in S1. rewrite B1 in S1.
  pose proof (slice_of_loader 2 outs S) as S2. cbn zeta in S2. rewrite B2 in S2.
  pose proof (slice_of_loader 3 outs S) as S3. cbn zeta in S3. rewrite B3 in S3.
  fold ids in S0, S1, S2, S3.
  repeat split; assumption.
Qed.

Lemma validation_slices_by_loader_witness :
  let outs := [(0%Z, 10%nat); (0%Z, 11%nat); (1%Z, 12%nat); (3%Z, 13%nat)] in
  let ids := map fst outs in
  let idx4 := running_totals [count_idx 0 ids; count_idx 1 ids;
                              count_idx 2 ids; count_idx 3 ids] in
  idx4 = [2; 3; 3; 4]%nat /\
  py_slice 0 (nth 0 idx4 0%nat) outs = [(0%Z, 10%nat); (0%Z, 11%nat)] /\
  py_slice (nth 1 idx4 0%nat) (nth 2 idx4 0%nat) outs
  = filter (fun o => fst o = 2%Z) outs.
Proof.
  intros outs ids idx4.
  assert (Sorted Z.le ids) as S.
  { subst ids outs. cbn.
    repeat (apply Sorted_cons || apply HdRel_cons || apply Sorted_nil
            || apply HdRel_nil); lia. }
  assert (Forall (fun i => (0 <= i)%Z) ids) as NN.
  { subst ids outs. cbn. repeat (apply List.Forall_cons; [lia|]).
    apply List.Forall_nil. }
  destruct (validation_slices_by_loader outs S NN) as [_ (_ & _ & S2 & _)].
  split; [reflexivity|]. split; [reflexivity | exact S2].
Defined.

Lemma log_slice_frame {D : Carriers} (m m' : Model) (a b : nat) (split : string)
    (k : nat) :
  log_slice m a b split k = Ok m' ->
  training m' = training m /\
  samples m' = samples m /\
  training_step_outputs m' = training_step_outputs m /\
  validation_step_outputs m' = validation_step_outputs m /\
  logged m `prefix_of` logged m' /\
  (training m = false -> avg_pool_size m' = avg_pool_size m).
Proof.
  unfold log_slice. intros E.
  apply bind_Ok in E. destruct E as (v & _ & E).
  apply bind_Ok in E. destruct E as (num & _ & E).
  exact (log_outputs_frame _ _ _ _ _ E).
Qed.

(** X23: When the end of a validation epoch returns, [validation_step_outputs]
    is empty again and [training_step_outputs] and the mode are untouched;
    [samples] has a length, which chose between the four seen/unseen splits
    (five entries) and the two plain ones; nothing already logged is lost; and
    in evaluation mode the early-stop threshold is left as the last forward
    pass set it. *)
Theorem validation_epoch_end_effect {D : Carriers} (m m' : Model) :
  on_validation_epoch_end m = Ok m' ->
  exists n,
    py_len (samples m) = Ok n /\
    validation_step_outputs m' = [] /\
    training_step_outputs m' = training_step_outputs m /\
    training m' = training m /\
    samples m' = samples m /\
    logged m `prefix_of` logged m' /\
    (training m = false -> avg_pool_size m' = avg_pool_size m).
Proof.
  unfold on_validation_epoch_end. intros E.
  apply bind_Ok in E. destruct E as (n & Hn & E).
  apply bind_Ok in E. destruct E as (m4 & B & E). injection E as <-.
  exists n. split; [exact Hn|]. cbn.
  destruct (n =? 5)%nat.
  - apply bind_Ok in B. destruct B as (m1 & L1 & B).
    apply bind_Ok in B. destruct B as (m2 & L2 & B).
    apply bind_Ok in B. destruct B as (m3 & L3 & L4).
    apply log_slice_frame in L1, L2, L3, L4.
    destruct L1 as (T1 & S1 & To1 & _ & Lg1 & A1).
    destruct L2 as (T2 & S2 & To2 & _ & Lg2 & A2).
    destruct L3 as (T3 & S3 & To3 & _ & Lg3 & A3).
    destruct L4 as (T4 & S4 & To4 & _ & Lg4 & A4).
    repeat split; try congruence.
    + etransitivity; [exact Lg1|]. etransitivity; [exact Lg2|].
      etransitivity; [exact Lg3 | exact Lg4].
    + intros T. rewrite A4, A3, A2, A1; congruence.
  - apply bind_Ok in B. destruct B as (m1 & L1 & L2).
    apply log_slice_frame in L1, L2.
    destruct L1 as (T1 & S1 & To1 & _ & Lg1 & A1).
    destruct L2 as (T2 & S2 & To2 & _ & Lg2 & A2).
    repeat split; try congruence.
    + etransitivity; [exact Lg1 | exact Lg2].
    + intros T. rewrite A2, A1; congruence.
Qed.

Lemma validation_epoch_end_effect_witness :
  (exists m',
     validation_step_outputs toy_model_val <> [] /\
     on_validation_epoch_end toy_model_val = Ok m' /\
     validation_step_outputs m' = [] /\
     avg_pool_size m' = avg_pool_size toy_model_val) /\
  (exists m',
     py_len (samples toy_model_val5) = Ok 5%nat /\
     on_validation_epoch_end toy_model_val5 = Ok m' /\
     validation_step_outputs m' = []).
Proof.
  split.
  - assert (exists m', on_validation_epoch_end toy_model_val = Ok m') as [m' E].
    { eexists. run. }
    destruct (validation_epoch_end_effect toy_model_val m' E)
      as (n & _ & Vo & _ & _ & _ & _ & A).
    exists m'. split; [discriminate|]. split; [exact E|]. split; [exact Vo|].
    exact (A eq_refl).
  - assert (exists m', on_validation_epoch_end toy_model_val5 = Ok m') as [m' E].
    { eexists. run. }
    destruct (validation_epoch_end_effect toy_model_val5 m' E)
      as (n & _ & Vo & _).
    exists m'. split; [reflexivity|]. split; [exact E | exact Vo].
Defined.

(** X24: The end of a validation epoch fails on a loader that produced nothing: if
    no output carries the data-loader index 0 while [samples[1]] is positive,
    it raises [ZeroDivisionError] (in particular when there are no validation
    outputs at all). *)
Theorem validation_epoch_end_empty_split {D : Carriers} (m : Model) (n : nat)
    (v : pyval) (num : Q) :
  py_len (samples m) = Ok n ->
  count_idx 0 (map fst (validation_step_outputs m)) = 0%nat ->
  py_index (samples m) 1 = Ok v ->
  py_num v = Ok num ->
  0 < num ->
  on_validation_epoch_end m = Raise ZeroDivisionError.
Proof.
  intros Hn C0 Hv Hnum P. unfold on_validation_epoch_end.
  rewrite Hn. cbn [mbind res_bind].
  assert (forall split,
            log_slice m 0 (count_idx 0 (map fst (validation_step_outputs m)))
                      split 1
            = Raise ZeroDivisionError) as L.
  { intros split. unfold log_slice. rewrite Hv. cbn [mbind res_bind].
    rewrite Hnum. cbn [mbind res_bind]. rewrite C0.
    apply (log_outputs_zero_division_iff m [] split num).
    split; [reflexivity | exact P]. }
  destruct (n =? 5)%nat; cbn -[log_slice count_idx]; rewrite L; reflexivity.
Qed.

Lemma validation_epoch_end_empty_split_witness :
  on_validation_epoch_end (set_training toy_model false)
  = Raise ZeroDivisionError.
Proof.
  apply (validation_epoch_end_empty_split (set_training toy_model false) 3
           (PInt 1) 1); reflexivity.
Defined.

Lemma log_loader_frame {D : Carriers} (m m' : Model) (loader : Z) (split : string)
    (k : nat) :
  log_loader m loader split k = Ok m' ->
  samples m' = samples m /\
  validation_step_outputs m' = validation_step_outputs m.
Proof.
  unfold log_loader. intros E.
  apply bind_Ok in E. destruct E as (v & _ & E).
  apply bind_Ok in E. destruct E as (num & _ & E).
  apply log_outputs_frame in E. destruct E as (_ & S & _ & V & _).
  split; assumption.
Qed.

(** X22: When the validation outputs come grouped by data loader, in the order of
    the loaders' indices, the end of the validation epoch logs each split from
    the outputs of its own loader: loaders 0 and 1 for ["Val"] and ["Test"], or
    loaders 0 to 3 for the four seen/unseen splits. *)
Theorem validation_epoch_end_by_loader {D : Carriers} (m : Model) :
  Sorted Z.le (map fst (validation_step_outputs m)) ->
  Forall (fun i => (0 <= i)%Z) (map fst (validation_step_outputs m)) ->
  on_validation_epoch_end m = validation_epoch_by_loader m.
Proof.
  intros S NN.
  destruct (validation_slices_by_loader (validation_step_outputs m) S NN)
    as [[A0 A1] (B0 & B1 & B2 & B3)].
  unfold on_validation_epoch_end, validation_epoch_by_loader.
  destruct (py_len (samples m)) as [n|e]; [|reflexivity].
  cbn [mbind res_bind].
  set (outs := validation_step_outputs m) in *.
  set (ids := map fst outs) in *.
  destruct (n =? 5)%nat.
  - set (idx := running_totals [count_idx 0 ids; count_idx 1 ids;
                                count_idx 2 ids; count_idx 3 ids]) in *.
    assert (log_slice m 0 (nth 0 idx 0%nat) "Val_Seen" 1
            = log_loader m 0 "Val_Seen" 1) as ->.
    { unfold log_slice, log_loader. fold outs. rewrite B0. reflexivity. }
    destruct (log_loader m 0 "Val_Seen" 1) as [m1|e] eqn:L1; [|reflexivity].
    cbn [mbind res_bind].
    apply log_loader_frame in L1. destruct L1 as [S1 V1].
    assert (log_slice m1 (nth 0 idx 0%nat) (nth 1 idx 0%nat) "Val_UnSeen" 2
            = log_loader m1 1 "Val_UnSeen" 2) as ->.
    { unfold log_slice, log_loader. rewrite V1. fold outs. rewrite B1.
      reflexivity. }
    destruct (log_loader m1 1 "Val_UnSeen" 2) as [m2|e] eqn:L2; [|reflexivity].
    cbn [mbind res_bind].
    apply log_loader_frame in L2. destruct L2 as [S2 V2]. rewrite V1 in V2.
    assert (log_slice m2 (nth 1 idx 0%nat) (nth 2 idx 0%nat) "Test_Seen" 3
            = log_loader m2 2 "Test_Seen" 3) as ->.
    { unfold log_slice, log_loader. rewrite V2. fold outs. rewrite B2.
      reflexivity. }
    destruct (log_loader m2 2 "Test_Seen" 3) as [m3|e] eqn:L3; [|reflexivity].
    cbn [mbind res_bind].
    apply log_loader_frame in L3. destruct L3 as [S3 V3]. rewrite V2 in V3.
    assert (log_slice m3 (nth 2 idx 0%nat) (nth 3 idx 0%nat) "Test_UnSeen" 4
            = log_loader m3 3 "Test_UnSeen" 4) as ->.
    { unfold log_slice, log_loader. rewrite V3. fold outs. rewrite B3.
      reflexivity. }
    reflexivity.
  - set (idx := running_totals [count_idx 0 ids; count_idx 1 ids]) in *.
    assert (log_slice m 0 (nth 0 idx 0%nat) "Val" 1 = log_loader m 0 "Val" 1)
      as ->.
    { unfold log_slice, log_loader. fold outs. rewrite A0. reflexivity. }
    destruct (log_loader m 0 "Val" 1) as [m1|e] eqn:L1; [|reflexivity].
    cbn [mbind res_bind].
    apply log_loader_frame in L1. destruct L1 as [S1 V1].
    assert (log_slice m1 (nth 0 idx 0%nat) (nth 1 idx 0%nat) "Test" 2
            = log_loader m1 1 "Test" 2) as ->.
    { unfold log_slice, log_loader. rewrite V1. fold outs. rewrite A1.
      reflexivity. }
    reflexivity.
Qed.

Lemma validation_epoch_end_by_loader_witness :
  on_validation_epoch_end toy_model_val = validation_epoch_by_loader toy_model_val /\
  exists m', on_validation_epoch_end toy_model_val = Ok m'.
Proof.
  split.
  - apply validation_epoch_end_by_loader.
    + cbn. repeat (apply Sorted_cons || apply HdRel_cons || apply Sorted_nil
                   || apply HdRel_nil); lia.
    + cbn. repeat (apply List.Forall_cons; [lia|]). apply List.Forall_nil.
  - eexists. run.
Defined.

(** Without the grouping the slices mix the loaders: here the first slice
    takes two outputs, one of them from loader 1. *)
Example interleaved_outputs_are_mixed :
  let outs := [(0%Z, 10%nat); (1%Z, 11%nat); (0%Z, 12%nat)] in
  let idx := running_totals [count_idx 0 (map fst outs); count_idx 1 (map fst outs)] in
  py_slice 0 (nth 0 idx 0%nat) outs = [(0%Z, 10%nat); (1%Z, 11%nat)].
Proof. reflexivity. Qed.
